(** * Save Progress Module (save-progress.js): capture-and-relay pipeline

    A shallow embedding of the hub-side script: the bounded console log
    buffer, the note registry with its debounced persistence, the patcher
    of the child-window factory, the cross-window message listener and the
    export/import handlers, followed by the properties checked against it.

    Conventions of the embedding.
    - JavaScript values are restricted to the JSON-like fragment that
      [JSON.parse] and structured cloning produce (no functions, symbols,
      dates or cyclic objects); numbers are the integer-valued ones and
      strings are byte strings.
    - The registry object [notesStore] is a finite map of its own
      properties.  A key that arrives in a relayed message is also looked up
      among the members inherited from [Object.prototype], which is taken as
      the platform defines it.  The key of the notes panel is a value of the
      select element and is assumed not to be the name of such a member.
    - [ToString] is the text of a value whose conversion does not throw and
      whose numbers are safe integers; [printable] is that condition, and
      [coercionThrows] tells when the conversion throws.
    - [Date.now()] is read once per handler run and passed in as [now].
    - An effect [SetItem k v] stands for the call
      [localStorage.setItem(k, JSON.stringify(v))] made by [saveJSON], which
      swallows a failing write.
    - The debounce timer is ideal: unless cancelled it fires at its deadline. *)

From Stdlib Require Import ZArith String Ascii List Lia DecimalString.
From stdpp Require Import gmap strings list fin_maps.

Local Open Scope string_scope.
Local Open Scope Z_scope.
Local Open Scope list_scope.

(* ===================================================================== *)
(** ** JavaScript values *)
(* ===================================================================== *)
Module Js.

#[warnings="-register-all"]
Inductive JsValue : Type :=
| JUndefined
| JNull
| JBool (b : bool)
| JNum (n : Z)
| JStr (s : string)
| JArr (elems : list JsValue) (expando : gmap string JsValue)
| JObj (props : gmap string JsValue).

(** An array literal: no named properties besides its elements. *)
Definition JArray (elems : list JsValue) : JsValue := JArr elems ∅.

(** ToBoolean. *)
Definition truthy (v : JsValue) : bool :=
  match v with
  | JUndefined | JNull => false
  | JBool b => b
  | JNum n => negb (n =? 0)
  | JStr s => negb (String.eqb s EmptyString)
  | JArr _ _ | JObj _ => true
  end.

(** [typeof v === "object"]. *)
Definition typeofObject (v : JsValue) : bool :=
  match v with
  | JNull | JArr _ _ | JObj _ => true
  | _ => false
  end.

Definition nullish (v : JsValue) : bool :=
  match v with
  | JUndefined | JNull => true
  | _ => false
  end.

(** Decimal rendering of an integer-valued number.  It is the text that
    Number::toString gives for a safe integer (at most [MAX_SAFE_INTEGER] in
    absolute value); larger numbers, which JavaScript rounds or prints with
    an exponent, are excluded by [printable] where a text is asserted. *)
Definition MAX_SAFE_INTEGER : Z := 9007199254740991.

Definition decimal (n : Z) : string := NilZero.string_of_int (Z.to_int n).

(** ToString, as applied by [String(v)], by a template literal and by a
    property key; array elements are joined with a comma, [null] and
    [undefined] elements rendering as the empty string.  The conversion of
    an object goes through its [toString] member: the text below is the one
    of the inherited method, see [coercionThrows] and [printable]. *)
Fixpoint ToString (v : JsValue) : string :=
  match v with
  | JUndefined => "undefined"
  | JNull => "null"
  | JBool true => "true"
  | JBool false => "false"
  | JNum n => decimal n
  | JStr s => s
  | JArr l _ =>
      String.concat ","
        (List.map (fun x => if nullish x then EmptyString else ToString x) l)
  | JObj _ => "[object Object]"
  end.

(** [name in ps], for the own properties [ps] of an object. *)
Definition hasOwn (name : string) (ps : gmap string JsValue) : bool :=
  match ps !! name with
  | Some _ => true
  | None => false
  end.

(** ToPrimitive on a value throws a TypeError: no value of the fragment is
    callable, so an own [toString] property hides the inherited method and
    the inherited [valueOf] returns the object itself.  An array is joined
    by the inherited [join], which converts every element that is neither
    [null] nor [undefined]; an own [join] property makes the inherited
    [toString] fall back on the one of [Object.prototype]. *)
Fixpoint coercionThrows (v : JsValue) : bool :=
  match v with
  | JObj ps => hasOwn "toString" ps
  | JArr es ex =>
      if hasOwn "toString" ex then true
      else if hasOwn "join" ex then false
      else existsb coercionThrows es
  | _ => false
  end.

(** The values on which [ToString] above is the text JavaScript produces:
    numbers are safe integers, no object or array met by the conversion has
    an own [toString] and no array an own [join]. *)
Fixpoint printable (v : JsValue) : bool :=
  match v with
  | JNum n => Z.abs n <=? MAX_SAFE_INTEGER
  | JObj ps => negb (hasOwn "toString" ps)
  | JArr es ex =>
      negb (hasOwn "toString" ex) && negb (hasOwn "join" ex) && forallb printable es
  | _ => true
  end.

(** [v === s] for a string [s]. *)
Definition strictEqStr (v : JsValue) (s : string) : bool :=
  match v with
  | JStr s' => String.eqb s' s
  | _ => false
  end.

(** Property read [v.name]; [None] is the TypeError raised on [undefined]
    and [null].  Only names that no prototype defines are ever read by the
    module (type, lvl, msg, gameTitle, key, txt, notes, consoleLogs, id,
    title, src), so a primitive yields [undefined]. *)
Definition Get (v : JsValue) (name : string) : option JsValue :=
  match v with
  | JUndefined | JNull => None
  | JObj ps => Some (default JUndefined (ps !! name))
  | JArr _ ex => Some (default JUndefined (ex !! name))
  | _ => Some JUndefined
  end.

(** Property write [v.name = x] in strict mode; [None] is the TypeError
    raised when [v] is a primitive. *)
Definition Put (v : JsValue) (name : string) (x : JsValue) : option JsValue :=
  match v with
  | JObj ps => Some (JObj (<[name := x]> ps))
  | JArr es ex => Some (JArr es (<[name := x]> ex))
  | _ => None
  end.

(** Index-keyed properties of a sequence of elements. *)
Definition indexed (l : list JsValue) : gmap string JsValue :=
  list_to_map (imap (fun i x => (decimal (Z.of_nat i), x)) l).

(** The own enumerable properties that [Object.assign] copies from a source. *)
Definition ownProps (v : JsValue) : gmap string JsValue :=
  match v with
  | JObj ps => ps
  | JArr es ex => indexed es ∪ ex
  | JStr s => indexed (List.map (fun c => JStr (String c EmptyString)) (list_ascii_of_string s))
  | _ => ∅
  end.

(** [Object.assign(target, src)] on a map-like target: every copied
    property overwrites the target's.  A source property named [__proto__]
    is handed by the assignment to the inherited setter and becomes no own
    property; the statements about a merge assume that the source has none. *)
Definition objectAssign (target : gmap string JsValue) (src : JsValue)
  : gmap string JsValue :=
  ownProps src ∪ target.

(** The names of the members that an ordinary object inherits from
    [Object.prototype]; each of them reads as a truthy value (a function,
    or the prototype itself for [__proto__]). *)
Definition OBJECT_PROTOTYPE_NAMES : list string :=
  ["constructor"; "__defineGetter__"; "__defineSetter__"; "hasOwnProperty";
   "__lookupGetter__"; "__lookupSetter__"; "isPrototypeOf";
   "propertyIsEnumerable"; "toString"; "valueOf"; "__proto__";
   "toLocaleString"].

Definition inheritedName (k : string) : bool :=
  existsb (String.eqb k) OBJECT_PROTOTYPE_NAMES.

(** [obj[k]] finds an inherited member: [k] is no own property of the
    object and names a member of [Object.prototype]. *)
Definition inheritedOnly (ps : gmap string JsValue) (k : string) : bool :=
  negb (hasOwn k ps) && inheritedName k.

(** The elements produced by spreading [...v]; [None] is the TypeError
    raised when [v] is not iterable. *)
Definition iterate (v : JsValue) : option (list JsValue) :=
  match v with
  | JArr es _ => Some es
  | JStr s => Some (List.map (fun c => JStr (String c EmptyString)) (list_ascii_of_string s))
  | _ => None
  end.

(** *** Strings *)

Definition dq : string := String "034"%char EmptyString.
Definition nl : string := String "010"%char EmptyString.
Definition unlines (ls : list string) : string := String.concat nl ls.

(** [stripPrefix p s] is the rest of [s] after its prefix [p]. *)
Fixpoint stripPrefix (p s : string) : option string :=
  match p with
  | EmptyString => Some s
  | String a p' =>
      match s with
      | EmptyString => None
      | String b s' => if Ascii.eqb a b then stripPrefix p' s' else None
      end
  end.

(** The text before and after the first occurrence of [pat] in [s]. *)
Fixpoint splitFirst (pat s : string) : option (string * string) :=
  match stripPrefix pat s with
  | Some rest => Some (EmptyString, rest)
  | None =>
      match s with
      | EmptyString => None
      | String c s' =>
          match splitFirst pat s' with
          | Some (pre, post) => Some (String c pre, post)
          | None => None
          end
      end
  end.

(** GetSubstitution for a string pattern (no capture groups): in the
    replacement text [$$] is a dollar sign, [$&] the matched text, [$`] the
    text before the match and [$'] the text after it; any other character,
    a lone [$] included, stands for itself. *)
Fixpoint GetSubstitution (matched pre post repl : string) : string :=
  match repl with
  | EmptyString => EmptyString
  | String c r =>
      if Ascii.eqb c "$"%char then
        match r with
        | String d r' =>
            if Ascii.eqb d "$"%char then "$" +:+ GetSubstitution matched pre post r'
            else if Ascii.eqb d "&"%char then matched +:+ GetSubstitution matched pre post r'
            else if Ascii.eqb d "`"%char then pre +:+ GetSubstitution matched pre post r'
            else if Ascii.eqb d "'"%char then post +:+ GetSubstitution matched pre post r'
            else String c (GetSubstitution matched pre post r)
        | EmptyString => "$"
        end
      else String c (GetSubstitution matched pre post r)
  end.

(** [s.replace(pat, repl)] with a string pattern: only the first occurrence
    is replaced, and [s] is returned as it is when there is none. *)
Definition replace (s pat repl : string) : string :=
  match splitFirst pat s with
  | None => s
  | Some (pre, post) => pre +:+ GetSubstitution pat pre post repl +:+ post
  end.

Definition hexDigit (n : nat) : ascii :=
  nth n (list_ascii_of_string "0123456789abcdef") "0"%char.

(** The escape of one character inside a JSON string literal. *)
Definition escapeChar (c : ascii) : string :=
  let n := nat_of_ascii c in
  if Nat.eqb n 34 then "\" +:+ dq
  else if Nat.eqb n 92 then "\\"
  else if Nat.eqb n 8 then "\b"
  else if Nat.eqb n 9 then "\t"
  else if Nat.eqb n 10 then "\n"
  else if Nat.eqb n 12 then "\f"
  else if Nat.eqb n 13 then "\r"
  else if Nat.ltb n 32 then
    "\u00" +:+ String (hexDigit (n / 16)) (String (hexDigit (n mod 16)) EmptyString)
  else String c EmptyString.

(** [JSON.stringify(s)] for a string [s]. *)
Definition QuoteJSONString (s : string) : string :=
  dq +:+ String.concat EmptyString (List.map escapeChar (list_ascii_of_string s)) +:+ dq.

End Js.
Import Js.

(* ===================================================================== *)
(** ** Constants and state of the module *)
(* ===================================================================== *)

Definition KEY_CONSOLE : string := "dbg_console_v1".
Definition KEY_NOTES : string := "dbg_notes_v1".
Definition KEY_INJECT : string := "dbg_inject_enabled".
Definition MAX_LOGS : nat := 400.

(** Delay of the note persistence timer, in milliseconds. *)
Definition NOTE_SAVE_DELAY : Z := 600.

(** The end-of-body marker searched for by the wrapped factory. *)
Definition BODY_END : string := "</body>".

(** The five wrapped console methods. *)
Inductive Method := Mlog | Mwarn | Merror | Minfo | Mdebug.

Definition methodName (m : Method) : string :=
  match m with
  | Mlog => "log" | Mwarn => "warn" | Merror => "error"
  | Minfo => "info" | Mdebug => "debug"
  end.

(** The launcher's factory [(title, src, autoFS) -> markup]. *)
Definition Factory : Type := string -> string -> bool -> string.

(** A function stored in [window.makeBlankerHTML]: a function defined outside
    the module, or the wrapper closure installed by [patchMakeBlankerHTML]. *)
Inductive FactoryRef :=
| External (f : Factory)
| Wrapper.

(** Outcome of [JSON.parse] on a text. *)
Inductive ParseResult :=
| SyntaxError
| Parsed (data : JsValue).

(** What the module does to the outside. *)
Inductive Effect :=
| PassThrough (m : Method) (args : list JsValue)
| SetItem (key : string) (val : JsValue)
| Render (shown : list JsValue)
| Alert (text : string)
| Download (filename : string) (data : JsValue)
| PrototypeWrite (member name : string) (val : JsValue)
    (* [name] set on the member [member] inherited from Object.prototype *)
| Uncaught.

Record State := mkState {
  consoleLogs : list JsValue;
  notesStore : gmap string JsValue;
  noteSaveTimer : option Z;          (* deadline of the pending timer *)
  currentNoteKey : option string;    (* [null] is [None]; never [Some EmptyString] *)
  notesArea : string;                (* value of #sp-notes-area *)
  activeTab : string;
  consoleFilter : string;
  injectEnabled : bool;
  makeBlankerHTML : option FactoryRef;      (* [None]: not a function *)
  origMakeBlankerHTML : option FactoryRef;  (* window.__origMakeBlankerHTML *)
  catalog : ParseResult;  (* JSON.parse(localStorage.getItem("dbg_items_v6") || "[]") *)
  effects : list Effect
}.

Definition setLogs (l : list JsValue) (st : State) : State :=
  mkState l (notesStore st) (noteSaveTimer st) (currentNoteKey st) (notesArea st)
    (activeTab st) (consoleFilter st) (injectEnabled st) (makeBlankerHTML st)
    (origMakeBlankerHTML st) (catalog st) (effects st).

Definition setNotes (m : gmap string JsValue) (st : State) : State :=
  mkState (consoleLogs st) m (noteSaveTimer st) (currentNoteKey st) (notesArea st)
    (activeTab st) (consoleFilter st) (injectEnabled st) (makeBlankerHTML st)
    (origMakeBlankerHTML st) (catalog st) (effects st).

Definition setTimer (t : option Z) (st : State) : State :=
  mkState (consoleLogs st) (notesStore st) t (currentNoteKey st) (notesArea st)
    (activeTab st) (consoleFilter st) (injectEnabled st) (makeBlankerHTML st)
    (origMakeBlankerHTML st) (catalog st) (effects st).

Definition setNoteKey (k : option string) (st : State) : State :=
  mkState (consoleLogs st) (notesStore st) (noteSaveTimer st) k (notesArea st)
    (activeTab st) (consoleFilter st) (injectEnabled st) (makeBlankerHTML st)
    (origMakeBlankerHTML st) (catalog st) (effects st).

Definition setArea (s : string) (st : State) : State :=
  mkState (consoleLogs st) (notesStore st) (noteSaveTimer st) (currentNoteKey st) s
    (activeTab st) (consoleFilter st) (injectEnabled st) (makeBlankerHTML st)
    (origMakeBlankerHTML st) (catalog st) (effects st).

Definition setTab (s : string) (st : State) : State :=
  mkState (consoleLogs st) (notesStore st) (noteSaveTimer st) (currentNoteKey st)
    (notesArea st) s (consoleFilter st) (injectEnabled st) (makeBlankerHTML st)
    (origMakeBlankerHTML st) (catalog st) (effects st).

Definition setFilter (s : string) (st : State) : State :=
  mkState (consoleLogs st) (notesStore st) (noteSaveTimer st) (currentNoteKey st)
    (notesArea st) (activeTab st) s (injectEnabled st) (makeBlankerHTML st)
    (origMakeBlankerHTML st) (catalog st) (effects st).

Definition setInject (b : bool) (st : State) : State :=
  mkState (consoleLogs st) (notesStore st) (noteSaveTimer st) (currentNoteKey st)
    (notesArea st) (activeTab st) (consoleFilter st) b (makeBlankerHTML st)
    (origMakeBlankerHTML st) (catalog st) (effects st).

Definition setFactory (f : option FactoryRef) (st : State) : State :=
  mkState (consoleLogs st) (notesStore st) (noteSaveTimer st) (currentNoteKey st)
    (notesArea st) (activeTab st) (consoleFilter st) (injectEnabled st) f
    (origMakeBlankerHTML st) (catalog st) (effects st).

Definition setOrig (f : option FactoryRef) (st : State) : State :=
  mkState (consoleLogs st) (notesStore st) (noteSaveTimer st) (currentNoteKey st)
    (notesArea st) (activeTab st) (consoleFilter st) (injectEnabled st)
    (makeBlankerHTML st) f (catalog st) (effects st).

Definition emit (e : Effect) (st : State) : State :=
  mkState (consoleLogs st) (notesStore st) (noteSaveTimer st) (currentNoteKey st)
    (notesArea st) (activeTab st) (consoleFilter st) (injectEnabled st)
    (makeBlankerHTML st) (origMakeBlankerHTML st) (catalog st) (effects st ++ [e]).

(** How a run of statements ends: normally, or by a thrown exception. *)
Inductive Completion :=
| Normal (st : State)
| Throw (st : State).

Definition andThen (c : Completion) (k : State -> Completion) : Completion :=
  match c with
  | Normal st => k st
  | Throw st => Throw st
  end.

(** An exception that no handler of the module catches. *)
Definition uncaught (c : Completion) : State :=
  match c with
  | Normal st => st
  | Throw st => emit Uncaught st
  end.

(* ===================================================================== *)
(** ** Storage helpers and the console interceptor *)
(* ===================================================================== *)

(** [loadJSON(key, fallback)] on the stored item ([None]: no item). *)
Definition loadJSON (item : option ParseResult) (fallback : JsValue) : JsValue :=
  match item with
  | Some (Parsed v) => if nullish v then fallback else v
  | Some SyntaxError => fallback
  | None => fallback
  end.

Definition saveJSON (key : string) (val : JsValue) (st : State) : State :=
  emit (SetItem key val) st.

Definition saveNotes (st : State) : State :=
  saveJSON KEY_NOTES (JObj (notesStore st)) st.

(** [logs.slice(-n)]. *)
Definition lastN {A} (n : nat) (l : list A) : list A :=
  skipn (length l - n) l.

(** [consoleLogs.push(entry)] followed by the splice that keeps the buffer
    within [MAX_LOGS]. *)
Definition pushLog (entry : JsValue) (logs : list JsValue) : list JsValue :=
  let logs' := logs ++ [entry] in
  if (MAX_LOGS <? length logs')%nat
  then skipn (length logs' - MAX_LOGS) logs'
  else logs'.

Definition logEntry (now : Z) (lvl msg : JsValue) : JsValue :=
  JObj (<["t" := JNum now]> (<["lvl" := lvl]> (<["msg" := msg]> ∅))).

(** The painting loop cannot paint [entry]: reading a field of [null] or
    [undefined] throws, and so does the conversion of [entry.lvl] (string
    concatenation), of [entry.t] (the Date constructor) or of [entry.msg]
    (in [escHtml]) when it throws. *)
Definition entryThrows (entry : JsValue) : bool :=
  match Get entry "lvl", Get entry "t", Get entry "msg" with
  | Some lvl, Some t, Some msg =>
      coercionThrows lvl || coercionThrows t || coercionThrows msg
  | _, _, _ => true
  end.

(** [renderConsoleLogs]: the filter callback reads [l.lvl] of every buffered
    entry and throws on a [null] or [undefined] one, before the list is
    touched.  The list is then emptied (effect [Render []]) and the last
    120 selected entries are built in a fragment, which is attached to the
    list only when every one of them could be painted. *)
Definition renderConsoleLogs (st : State) : Completion :=
  let filtered :=
    if String.eqb (consoleFilter st) EmptyString then Some (consoleLogs st)
    else if existsb nullish (consoleLogs st) then None
    else Some (List.filter
                 (fun l => strictEqStr (default JUndefined (Get l "lvl")) (consoleFilter st))
                 (consoleLogs st)) in
  match filtered with
  | None => Throw st
  | Some logs =>
      let slice := lastN 120 logs in
      if existsb entryThrows slice then Throw (emit (Render []) st)
      else Normal (emit (Render slice) st)
  end.

Section Interceptor.
(** [JSON.stringify] on an object-typed argument; [None] when it throws.
    Its text depends on property order, which the value model forgets. *)
Variable JSON_stringify : JsValue -> option string.

Definition argText (a : JsValue) : string :=
  if typeofObject a then
    match JSON_stringify a with
    | Some s => s
    | None => ToString a
    end
  else ToString a.

Definition flattenArgs (args : list JsValue) : string :=
  String.concat " " (List.map argText args).

(** The wrapper installed on [console[method]]. *)
Definition consoleMethod (now : Z) (m : Method) (args : list JsValue)
    (st : State) : Completion :=
  let st1 := emit (PassThrough m args) st in
  let entry := logEntry now (JStr (methodName m)) (JStr (flattenArgs args)) in
  let st2 := setLogs (pushLog entry (consoleLogs st1)) st1 in
  let st3 := saveJSON KEY_CONSOLE (JArray (consoleLogs st2)) st2 in
  renderConsoleLogs st3.
End Interceptor.

(** Click on "Clear logs". *)
Definition onConsoleClear (st : State) : State :=
  uncaught (renderConsoleLogs (saveJSON KEY_CONSOLE (JArray []) (setLogs [] st))).

(** Click on a filter button. *)
Definition onFilter (filter : string) (st : State) : State :=
  uncaught (renderConsoleLogs (setFilter filter st)).

(* ===================================================================== *)
(** ** Notes *)
(* ===================================================================== *)

(** [notesStore[k]] for a key that is an own property of the registry or
    names no inherited member; [undefined] when absent. *)
Definition noteAt (reg : gmap string JsValue) (k : string) : JsValue :=
  default JUndefined (reg !! k).

Definition loadNoteForKey (key : string) (st : State) : State :=
  let st1 := setNoteKey (if String.eqb key EmptyString then None else Some key) st in
  if String.eqb key EmptyString then setArea EmptyString st1
  else
    let v := noteAt (notesStore st) key in
    let n := if nullish v then JUndefined else default JUndefined (Get v "notes") in
    setArea (if truthy n then ToString n else EmptyString) st1.

(** Options appended from the launcher's items: one per item that has no
    note yet; a throwing item ends the loop (the exception is caught). *)
Fixpoint catalogOptions (reg : gmap string JsValue) (items : list JsValue)
  : list string :=
  match items with
  | [] => []
  | item :: rest =>
      match Get item "id" with
      | None => []
      | Some id =>
          if truthy (noteAt reg (ToString id)) then catalogOptions reg rest
          else ToString id :: catalogOptions reg rest
      end
  end.

Definition selectOptions (st : State) : list string :=
  List.map fst (map_to_list (notesStore st))
  ++ match catalog st with
     | Parsed (JArr items _) => catalogOptions (notesStore st) items
     | _ => []
     end.

(** [populateGameSelect]: the options are rebuilt, the previous selection is
    kept when it is still an option, and its note is loaded. *)
Definition populateGameSelect (st : State) : State :=
  let current := default EmptyString (currentNoteKey st) in
  let value :=
    if existsb (String.eqb current) (selectOptions st) then current else EmptyString in
  loadNoteForKey value st.

(** Click on a tab.  Labelling the options reads [notesStore[k].title] of
    every stored key, which throws on a [null] value. *)
Definition onTab (tab : string) (st : State) : State :=
  let st1 := setTab tab st in
  if String.eqb tab "notes" then
    if existsb (fun kv => nullish (snd kv)) (map_to_list (notesStore st1))
    then emit Uncaught st1
    else populateGameSelect st1
  else st1.

(** [items.find(x => x.id === key)]: [None] when the callback throws. *)
Fixpoint findItem (key : string) (items : list JsValue) : option (option JsValue) :=
  match items with
  | [] => Some None
  | x :: rest =>
      match Get x "id" with
      | None => None
      | Some id => if strictEqStr id key then Some (Some x) else findItem key rest
      end
  end.

(** Title given to a record created by an edit: the catalogue's title of the
    item, else the key. *)
Definition resolveTitle (cat : ParseResult) (key : string) : JsValue :=
  match cat with
  | Parsed (JArr items _) =>
      match findItem key items with
      | Some (Some found) =>
          let t := default JUndefined (Get found "title") in
          if truthy t then t else JStr key
      | _ => JStr key
      end
  | _ => JStr key
  end.

Definition noteRecord (title notes : JsValue) (ts : Z) : JsValue :=
  JObj (<["title" := title]> (<["notes" := notes]> (<["ts" := JNum ts]> ∅))).

(** [if (!notesStore[k]) notesStore[k] = { title, notes: EmptyString, ts }]. *)
Definition ensureRecord (k : string) (title : JsValue) (now : Z)
    (reg : gmap string JsValue) : gmap string JsValue :=
  if truthy (noteAt reg k) then reg
  else <[k := noteRecord title (JStr EmptyString) now]> reg.

(** [notesStore[k].notes = text; notesStore[k].ts = now]; [None] when the
    stored value is a primitive and the assignment throws. *)
Definition writeNote (k : string) (text : JsValue) (now : Z)
    (reg : gmap string JsValue) : option (gmap string JsValue) :=
  match Put (noteAt reg k) "notes" text with
  | None => None
  | Some v1 =>
      match Put v1 "ts" (JNum now) with
      | None => None
      | Some v2 => Some (<[k := v2]> reg)
      end
  end.

(** Input event of the notes area, after the user changed its value.  The
    active key is a value of the select element (a key of the registry or
    an id of the catalogue) and is read as an own property. *)
Definition onNotesInput (now : Z) (text : string) (st : State) : State :=
  let st0 := setArea text st in
  match currentNoteKey st0 with
  | None => st0
  | Some k =>
      let reg1 := ensureRecord k (resolveTitle (catalog st0) k) now (notesStore st0) in
      match writeNote k (JStr (notesArea st0)) now reg1 with
      | None => emit Uncaught (setNotes reg1 st0)
      | Some reg2 => setTimer (Some (now + NOTE_SAVE_DELAY)) (setNotes reg2 st0)
      end
  end.

(** The callback of the note persistence timer. *)
Definition noteTimerFire (st : State) : State :=
  saveNotes (setTimer None st).

(* ===================================================================== *)
(** ** The injection patcher *)
(* ===================================================================== *)

Module Agent.
(** The agent template literal up to the interpolated title (source lines 450-497). *)
Definition agentHead : string := unlines [
  EmptyString;
  "<style>";
  "  #sp-mini{position:fixed;bottom:10px;left:10px;z-index:99999;width:320px;max-height:260px;";
  "    display:flex;flex-direction:column;";
  "    background:rgba(4,10,28,.95);border:1px solid rgba(103,209,255,.3);border-radius:14px;";
  "    font-family:'Courier New',monospace;font-size:.72rem;color:#c5d5ff;box-shadow:0 12px 36px rgba(0,0,0,.7);";
  "    backdrop-filter:blur(12px);overflow:hidden;transition:opacity .2s;}";
  "  #sp-mini.sp-collapsed{max-height:36px;}";
  "  #sp-mini-header{display:flex;align-items:center;justify-content:space-between;";
  "    padding:6px 10px;background:rgba(103,209,255,.08);border-bottom:1px solid rgba(255,255,255,.08);";
  "    cursor:pointer;flex-shrink:0;}";
  "  #sp-mini-title{font-weight:700;color:#67d1ff;font-family:system-ui,sans-serif;}";
  "  #sp-mini-btns{display:flex;gap:4px;}";
  "  .sp-mini-btn{padding:2px 7px;border-radius:6px;border:1px solid rgba(255,255,255,.15);";
  "    background:rgba(255,255,255,.07);color:#e7f0ff;cursor:pointer;font-size:.7rem;}";
  "  .sp-mini-btn:hover{background:rgba(255,255,255,.15);}";
  "  #sp-mini-logs{overflow-y:auto;flex:1;padding:6px 8px;}";
  "  #sp-mini-logs::-webkit-scrollbar{width:4px;}";
  "  #sp-mini-logs::-webkit-scrollbar-thumb{background:rgba(103,209,255,.3);border-radius:4px;}";
  "  .sp-ml{padding:2px 0;border-left:2px solid rgba(255,255,255,.15);padding-left:5px;margin-bottom:2px;word-break:break-all;}";
  "  .sp-ml.e{border-color:#ff6e7a;color:#ffaaaf;} .sp-ml.w{border-color:#ffd76e;color:#ffe9a0;}";
  "  .sp-ml.i{border-color:#67d1ff;color:#a8e8ff;}";
  "  #sp-mini-notes{padding:6px;border-top:1px solid rgba(255,255,255,.08);}";
  "  #sp-mini-notes textarea{width:100%;background:rgba(255,255,255,.06);border:1px solid rgba(255,255,255,.12);";
  "    border-radius:8px;color:#e7f0ff;font-family:'Courier New',monospace;font-size:.72rem;";
  "    padding:5px;resize:none;outline:none;height:50px;}";
  "  #sp-mini-notes textarea:focus{border-color:rgba(103,209,255,.5);}";
  "</style>";
  "<div id=" +:+ dq +:+ "sp-mini" +:+ dq +:+ ">";
  "  <div id=" +:+ dq +:+ "sp-mini-header" +:+ dq +:+ ">";
  "    <span id=" +:+ dq +:+ "sp-mini-title" +:+ dq +:+ ">💾 Console</span>";
  "    <div id=" +:+ dq +:+ "sp-mini-btns" +:+ dq +:+ ">";
  "      <button class=" +:+ dq +:+ "sp-mini-btn" +:+ dq +:+ " id=" +:+ dq +:+ "sp-mini-notes-btn" +:+ dq +:+ ">📝</button>";
  "      <button class=" +:+ dq +:+ "sp-mini-btn" +:+ dq +:+ " id=" +:+ dq +:+ "sp-mini-clear" +:+ dq +:+ ">🗑</button>";
  "      <button class=" +:+ dq +:+ "sp-mini-btn" +:+ dq +:+ " id=" +:+ dq +:+ "sp-mini-toggle" +:+ dq +:+ ">—</button>";
  "    </div>";
  "  </div>";
  "  <div id=" +:+ dq +:+ "sp-mini-logs" +:+ dq +:+ "></div>";
  "  <div id=" +:+ dq +:+ "sp-mini-notes" +:+ dq +:+ " style=" +:+ dq +:+ "display:none" +:+ dq +:+ ">";
  "    <textarea placeholder=" +:+ dq +:+ "Notes / progress…" +:+ dq +:+ " id=" +:+ dq +:+ "sp-mini-notes-area" +:+ dq +:+ "></textarea>";
  "    <button class=" +:+ dq +:+ "sp-mini-btn" +:+ dq +:+ " id=" +:+ dq +:+ "sp-mini-save-note" +:+ dq +:+ " style=" +:+ dq +:+ "margin-top:3px;" +:+ dq +:+ ">Save note</button>";
  "  </div>";
  "</div>";
  "<script>";
  "(function(){";
  "  const el=document.getElementById('sp-mini');";
  "  const logs=document.getElementById('sp-mini-logs');";
  "  const gameTitle="
].

(** The agent template literal after the interpolated title (source lines 497-542). *)
Definition agentTail : string := unlines [
  ";";
  "  const gameKey='sp_blanker_'+encodeURIComponent(gameTitle);";
  "  let collapsed=false;";
  "  function addLog(lvl,msg){";
  "    const d=document.createElement('div');";
  "    d.className='sp-ml '+(lvl==='error'?'e':lvl==='warn'?'w':lvl==='info'?'i':'');";
  "    d.textContent=new Date().toLocaleTimeString()+' '+msg.slice(0,200);";
  "    logs.appendChild(d);";
  "    if(logs.children.length>80) logs.removeChild(logs.firstChild);";
  "    logs.scrollTop=logs.scrollHeight;";
  "    // Persist to parent localStorage via postMessage";
  "    try{window.opener?.postMessage({type:'sp_log',lvl,msg,gameTitle},'*');}catch(e){}";
  "  }";
  "  ['log','warn','error','info','debug'].forEach(m=>{";
  "    const orig=console[m].bind(console);";
  "    console[m]=function(...a){orig(...a);addLog(m,a.map(x=>{try{return typeof x==='object'?JSON.stringify(x):String(x);}catch(e){return String(x);}}).join(' '));};";
  "  });";
  "  window.addEventListener('error',e=>{addLog('error','Uncaught: '+e.message+' ('+e.filename+':'+e.lineno+')');});";
  "  window.addEventListener('unhandledrejection',e=>{addLog('error','Unhandled promise: '+e.reason);});";
  EmptyString;
  "  document.getElementById('sp-mini-header').addEventListener('click',e=>{";
  "    if(e.target.closest('#sp-mini-btns')) return;";
  "    collapsed=!collapsed; el.classList.toggle('sp-collapsed',collapsed);";
  "    document.getElementById('sp-mini-toggle').textContent=collapsed?'+':'—';";
  "  });";
  "  document.getElementById('sp-mini-toggle').addEventListener('click',e=>{e.stopPropagation();collapsed=!collapsed;el.classList.toggle('sp-collapsed',collapsed);e.target.textContent=collapsed?'+':'—';});";
  "  document.getElementById('sp-mini-clear').addEventListener('click',()=>{logs.innerHTML='';});";
  "  document.getElementById('sp-mini-notes-btn').addEventListener('click',()=>{";
  "    const n=document.getElementById('sp-mini-notes');";
  "    n.style.display=n.style.display==='none'?'block':'none';";
  "    if(n.style.display==='block'){";
  "      const saved=localStorage.getItem(gameKey)||'';";
  "      document.getElementById('sp-mini-notes-area').value=saved;";
  "    }";
  "  });";
  "  document.getElementById('sp-mini-save-note').addEventListener('click',()=>{";
  "    const txt=document.getElementById('sp-mini-notes-area').value;";
  "    localStorage.setItem(gameKey,txt);";
  "    try{window.opener?.postMessage({type:'sp_note',key:gameKey,txt,gameTitle},'*');}catch(e){}";
  "    document.getElementById('sp-mini-save-note').textContent='✓ Saved!';";
  "    setTimeout(()=>{document.getElementById('sp-mini-save-note').textContent='Save note';},1500);";
  "  });";
  "  const saved=localStorage.getItem(gameKey);";
  "  if(saved) document.getElementById('sp-mini-notes-area').value=saved;";
  "})();";
  "</script>"
].

(** The markup, style and script appended to a child document: the template
    literal with [JSON.stringify(title)] interpolated. *)
Definition inject (title : string) : string :=
  agentHead +:+ QuoteJSONString title +:+ agentTail.

End Agent.

(** The body of the wrapper closure, given the function it forwards to. *)
Definition wrappedFactory (orig : Factory) : Factory :=
  fun title src autoFS =>
    let base := orig title src autoFS in
    Js.replace base BODY_END (Agent.inject title +:+ BODY_END).

Definition syncInjectUI (st : State) : State :=
  saveJSON KEY_INJECT (JBool (injectEnabled st)) st.

Definition patchMakeBlankerHTML (st : State) : State :=
  if negb (injectEnabled st) then
    match origMakeBlankerHTML st with
    | Some o => setFactory (Some o) st
    | None => st
    end
  else
    let st1 :=
      match origMakeBlankerHTML st, makeBlankerHTML st with
      | None, Some f => setOrig (Some f) st
      | _, _ => st
      end in
    match origMakeBlankerHTML st1 with
    | None => st1
    | Some _ => setFactory (Some Wrapper) st1
    end.

(** Click on the toggle of the Blanker tab. *)
Definition onInjectToggle (st : State) : State :=
  patchMakeBlankerHTML (syncInjectUI (setInject (negb (injectEnabled st)) st)).

(** A call [window.makeBlankerHTML(title, src, autoFS)] by the launcher.  The
    wrapper looks [window.__origMakeBlankerHTML] up when it runs; [None] is
    a call that throws (no function to call, or a wrapper that would forward
    to itself without end). *)
Definition callMakeBlankerHTML (st : State) (title src : string) (autoFS : bool)
  : option string :=
  match makeBlankerHTML st with
  | None => None
  | Some (External f) => Some (f title src autoFS)
  | Some Wrapper =>
      match origMakeBlankerHTML st with
      | Some (External f) => Some (wrappedFactory f title src autoFS)
      | _ => None
      end
  end.

(* ===================================================================== *)
(** ** The message listener *)
(* ===================================================================== *)

(** The [sp_log] branch. *)
Definition relayLog (now : Z) (data : JsValue) (st : State) : Completion :=
  let field name := default JUndefined (Get data name) in
  let msg := "[" +:+ ToString (field "gameTitle") +:+ "] " +:+ ToString (field "msg") in
  let entry := logEntry now (field "lvl") (JStr msg) in
  let st1 := setLogs (pushLog entry (consoleLogs st)) st in
  let st2 := saveJSON KEY_CONSOLE (JArray (consoleLogs st1)) st1 in
  if String.eqb (activeTab st2) "console" then renderConsoleLogs st2 else Normal st2.

(** The [sp_note] branch.  The key comes from the message: when it is no
    own property of the registry and names a member of [Object.prototype],
    [notesStore[key]] is that member, which is truthy, so that no record is
    created and the two assignments land on the member. *)
Definition relayNote (now : Z) (data : JsValue) (st : State) : Completion :=
  let field name := default JUndefined (Get data name) in
  let k := ToString (field "key") in
  if inheritedOnly (notesStore st) k then
    Normal (saveNotes (emit (PrototypeWrite k "ts" (JNum now))
                         (emit (PrototypeWrite k "notes" (field "txt")) st)))
  else
    let reg1 := ensureRecord k (field "gameTitle") now (notesStore st) in
    match writeNote k (field "txt") now reg1 with
    | None => Throw (setNotes reg1 st)
    | Some reg2 => Normal (saveNotes (setNotes reg2 st))
    end.

Definition onMessage (now : Z) (data : JsValue) (st : State) : State :=
  if negb (truthy data) || negb (typeofObject data) then st
  else
    let type := default JUndefined (Get data "type") in
    uncaught
      (andThen
         (if strictEqStr type "sp_log" then relayLog now data st else Normal st)
         (fun st1 =>
            if strictEqStr type "sp_note" then relayNote now data st1 else Normal st1)).

(* ===================================================================== *)
(** ** Export, import and clearing *)
(* ===================================================================== *)

(** The object handed to [downloadJSON] by "Download full save". *)
Definition fullSave (iso : string) (st : State) : JsValue :=
  JObj (<["exported" := JStr iso]>
        (<["version" := JNum 1]>
         (<["notes" := JObj (notesStore st)]>
          (<["consoleLogs" := JArray (consoleLogs st)]> ∅)))).

(** [iso] is [new Date().toISOString()]. *)
Definition onDownloadAll (now : Z) (iso : string) (st : State) : State :=
  emit (Download ("dbg-save-" +:+ decimal now +:+ ".json") (fullSave iso st)) st.

Definition onDownloadNotes (now : Z) (st : State) : State :=
  emit (Download ("dbg-notes-" +:+ decimal now +:+ ".json") (JObj (notesStore st))) st.

Definition onDownloadConsole (now : Z) (st : State) : State :=
  emit (Download ("dbg-console-" +:+ decimal now +:+ ".json") (JArray (consoleLogs st))) st.

Definition IMPORT_OK : string := "✓ Import successful!".
Definition IMPORT_FAILED : string := "⚠ Invalid save file.".

(** The statements inside the [try] of the file reader's [onload], given the
    outcome of [JSON.parse(ev.target.result)]. *)
Definition importBody (r : ParseResult) (st : State) : Completion :=
  match r with
  | SyntaxError => Throw st
  | Parsed data =>
      match Get data "notes", Get data "consoleLogs" with
      | Some notes, Some logs =>
          let st1 :=
            if truthy notes then setNotes (objectAssign (notesStore st) notes) st
            else st in
          let c2 :=
            if truthy logs then
              match iterate logs with
              | Some es => Normal (setLogs es st1)
              | None => Throw (setLogs [] st1)
              end
            else Normal st1 in
          andThen c2 (fun st2 =>
            let st3 := saveJSON KEY_CONSOLE (JArray (consoleLogs st2)) (saveNotes st2) in
            andThen (renderConsoleLogs st3) (fun st4 =>
              Normal (emit (Alert IMPORT_OK) st4)))
      | _, _ => Throw st
      end
  end.

(** [reader.onload] of the import: the [catch] reports the failure. *)
Definition onImportLoad (r : ParseResult) (st : State) : State :=
  match importBody r st with
  | Normal st' => st'
  | Throw st' => emit (Alert IMPORT_FAILED) st'
  end.

(** Click on "Clear ALL saved data"; [confirmed] is the answer to the prompt. *)
Definition onClearAll (confirmed : bool) (st : State) : State :=
  if negb confirmed then st
  else
    let st1 := setNotes ∅ (setLogs [] st) in
    let st2 := saveNotes (saveJSON KEY_CONSOLE (JArray []) st1) in
    uncaught (andThen (renderConsoleLogs st2) (fun st3 =>
      Normal (emit (Alert "Cleared.") st3))).

(* ===================================================================== *)
(** ** Events and timed runs *)
(* ===================================================================== *)

Inductive Event :=
| EvConsole (m : Method) (args : list JsValue)
| EvConsoleClear
| EvFilter (filter : string)
| EvTab (tab : string)
| EvSelect (key : string)
| EvInput (text : string)
| EvInjectToggle
| EvDomReady
| EvMessage (data : JsValue)
| EvDownloadAll (iso : string)
| EvDownloadNotes
| EvDownloadConsole
| EvImport (r : ParseResult)
| EvClearAll (confirmed : bool).

Section Run.
Variable JSON_stringify : JsValue -> option string.

(** One event handled at time [now]. *)
Definition dispatch (now : Z) (e : Event) (st : State) : State :=
  match e with
  | EvConsole m args =>
      match consoleMethod JSON_stringify now m args st with
      | Normal st' | Throw st' => st'
      end
  | EvConsoleClear => onConsoleClear st
  | EvFilter f => onFilter f st
  | EvTab t => onTab t st
  | EvSelect k => loadNoteForKey k st
  | EvInput text => onNotesInput now text st
  | EvInjectToggle => onInjectToggle st
  | EvDomReady => patchMakeBlankerHTML st
  | EvMessage data => onMessage now data st
  | EvDownloadAll iso => onDownloadAll now iso st
  | EvDownloadNotes => onDownloadNotes now st
  | EvDownloadConsole => onDownloadConsole now st
  | EvImport r => onImportLoad r st
  | EvClearAll c => onClearAll c st
  end.

(** The pending timer fires when its deadline lies before [t]; [tie] says
    whether it also goes first when the deadline is [t] itself. *)
Definition fireDue (tie : bool) (t : Z) (st : State) : State :=
  match noteSaveTimer st with
  | Some d => if (d <? t) || (tie && (d =? t)) then noteTimerFire st else st
  | None => st
  end.

(** A schedule of timestamped events, run in order. *)
Fixpoint run (tie : bool) (sched : list (Z * Event)) (st : State) : State :=
  match sched with
  | [] => st
  | (t, e) :: rest => run tie rest (dispatch t e (fireDue tie t st))
  end.

End Run.

(** The text stored for [k] in a registry. *)
Definition noteText (reg : gmap string JsValue) (k : string) : JsValue :=
  default JUndefined (Get (noteAt reg k) "notes").

(* ===================================================================== *)
(** ** Observations and sample inputs used by the statements *)
(* ===================================================================== *)

(** Lookups in maps built by successive inserts under distinct literal keys. *)
Ltac map_lookup :=
  repeat first
    [ rewrite lookup_insert_eq
    | rewrite lookup_insert_ne by (intro; discriminate)
    | rewrite lookup_empty ];
  cbn [default from_option id].

(** A quiescent state of the module holding the given buffer and registry. *)
Definition idleState (logs : list JsValue) (notes : gmap string JsValue) : State :=
  mkState logs notes None None EmptyString "console" EmptyString false None None
    (Parsed (JArray [])) [].


(** The texts of the alerts shown, oldest first. *)
Fixpoint alertsOf (es : list Effect) : list string :=
  match es with
  | [] => []
  | Alert a :: rest => a :: alertsOf rest
  | _ :: rest => alertsOf rest
  end.

(** The keys written to storage, oldest first. *)
Fixpoint storeWrites (es : list Effect) : list string :=
  match es with
  | [] => []
  | SetItem k _ :: rest => k :: storeWrites rest
  | _ :: rest => storeWrites rest
  end.

(** An import file whose [consoleLogs] array holds 401 entries. *)
Definition overfullLogs : list JsValue :=
  repeat (logEntry 0 (JStr "log") (JStr "x")) 401.

Definition overfullSave : JsValue :=
  JObj (<["consoleLogs" := JArray overfullLogs]> ∅).


(** [s] contains no dollar sign. *)
Fixpoint noDollar (s : string) : bool :=
  match s with
  | EmptyString => true
  | String c r => negb (Ascii.eqb c "$"%char) && noDollar r
  end.

(** [pre] and [post] surround the first occurrence of [pat] in [s]. *)
Definition firstAt (pat s pre post : string) : Prop :=
  s = pre +:+ pat +:+ post /\
  forall a b, s = a +:+ pat +:+ b -> (String.length pre <= String.length a)%nat.

(** [pat] occurs in [s]. *)
Definition occursIn (pat s : string) : Prop :=
  exists a b, s = a +:+ pat +:+ b.

(** A launcher whose factory is available and has never been patched. *)
Definition unpatched (f : Factory) (st : State) : Prop :=
  injectEnabled st = false /\
  makeBlankerHTML st = Some (External f) /\
  origMakeBlankerHTML st = None.

(** What the patcher has reached once the factory [f] has been captured. *)
Definition patched (f : Factory) (st : State) : Prop :=
  origMakeBlankerHTML st = Some (External f) /\
  makeBlankerHTML st = Some (if injectEnabled st then Wrapper else External f).

(** A factory producing a minimal document. *)
Definition plainFactory : Factory :=
  fun title _ _ => "<html><body>" +:+ title +:+ "</body></html>".

(** A factory whose document carries no lower-case end-of-body tag. *)
Definition bareFactory : Factory :=
  fun title _ _ => "<HTML><BODY>" +:+ title +:+ "</BODY></HTML>".

Definition launcherState (f : Factory) : State :=
  setFactory (Some (External f)) (idleState [] ∅).

(** The two message shapes of the wire contract: a log relay with a level,
    a message and a source title, or a note relay with a key, a text and a
    title, all of them strings. *)
Definition isString (v : JsValue) : bool :=
  match v with
  | JStr _ => true
  | _ => false
  end.

Definition wellFormedRelay (data : JsValue) : bool :=
  match data with
  | JObj ps =>
      let has name := isString (default JUndefined (ps !! name)) in
      (strictEqStr (default JUndefined (ps !! "type")) "sp_log"
         && has "lvl" && has "msg" && has "gameTitle")
      || (strictEqStr (default JUndefined (ps !! "type")) "sp_note"
            && has "key" && has "txt" && has "gameTitle")
  | _ => false
  end.

(** The discriminant [data.type] of a message. *)
Definition discriminant (data : JsValue) : JsValue :=
  default JUndefined (Get data "type").

(** A message that carries the log discriminant and nothing else. *)
Definition bareLogMessage : JsValue := JObj (<["type" := JStr "sp_log"]> ∅).

(** A note relay as the agent posts it. *)
Definition noteMessage (key txt title : string) : JsValue :=
  JObj (<["type" := JStr "sp_note"]>
        (<["key" := JStr key]>
         (<["txt" := JStr txt]>
          (<["gameTitle" := JStr title]> ∅)))).

(** The property names of the full save. *)
Definition fullSaveFields : list string :=
  ["exported"; "version"; "notes"; "consoleLogs"].

(** Every value of the registry is a record object. *)
Definition isRecord (v : JsValue) : bool :=
  match v with
  | JObj _ => true
  | _ => false
  end.

Definition recordsOnly (reg : gmap string JsValue) : Prop :=
  map_Forall (fun _ v => isRecord v = true) reg.

(** The effect of one flush of the registry. *)
Definition noteWrite (reg : gmap string JsValue) : Effect :=
  SetItem KEY_NOTES (JObj reg).










(* ===================================================================== *)
(** ** Further parts of the module: markup escaping and the agent script *)
(* ===================================================================== *)

(** [s.replace(/c/g, r)] for a single character [c] and a replacement text
    [r] without replacement patterns. *)
Fixpoint replaceAllChar (c : ascii) (r : string) (s : string) : string :=
  match s with
  | EmptyString => EmptyString
  | String a s' =>
      if Ascii.eqb a c then r +:+ replaceAllChar c r s'
      else String a (replaceAllChar c r s')
  end.

(** [escHtml(s)]: the four replacements, ampersand first. *)
Definition escHtml (v : JsValue) : string :=
  replaceAllChar "034"%char "&quot;"
    (replaceAllChar ">"%char "&gt;"
       (replaceAllChar "<"%char "&lt;"
          (replaceAllChar "&"%char "&amp;" (ToString v)))).

(** The entity written for one character by [escHtml]. *)
Definition escHtmlChar (c : ascii) : string :=
  if Ascii.eqb c "&"%char then "&amp;"
  else if Ascii.eqb c "<"%char then "&lt;"
  else if Ascii.eqb c ">"%char then "&gt;"
  else if Ascii.eqb c "034"%char then "&quot;"
  else String c EmptyString.

(** The characters of a string satisfy [p]. *)
Fixpoint allChars (p : ascii -> bool) (s : string) : bool :=
  match s with
  | EmptyString => true
  | String c r => p c && allChars p r
  end.

(** Text of ASCII characters only: its bytes are its UTF-16 code units. *)
Definition isAscii (s : string) : bool :=
  allChars (fun c => (nat_of_ascii c <? 128)%nat) s.

(** Characters that [encodeURIComponent] leaves as they are. *)
Definition uriUnreserved (c : ascii) : bool :=
  let n := nat_of_ascii c in
  ((48 <=? n) && (n <=? 57))%nat || ((65 <=? n) && (n <=? 90))%nat
  || ((97 <=? n) && (n <=? 122))%nat
  || existsb (Ascii.eqb c) (list_ascii_of_string "-_.!~*'()").

Definition hexUpper (n : nat) : ascii :=
  nth n (list_ascii_of_string "0123456789ABCDEF") "0"%char.

Definition encodeURIChar (c : ascii) : string :=
  if uriUnreserved c then String c EmptyString
  else
    let n := nat_of_ascii c in
    String "%"%char (String (hexUpper (n / 16)) (String (hexUpper (n mod 16)) EmptyString)).

(** [encodeURIComponent(s)] on the UTF-8 bytes of [s]. *)
Definition encodeURIComponent (s : string) : string :=
  String.concat EmptyString (List.map encodeURIChar (list_ascii_of_string s)).

(** Value of an upper-case hexadecimal digit. *)
Definition hexValue (c : ascii) : nat :=
  let n := nat_of_ascii c in
  if (n <=? 57)%nat then (n - 48)%nat else (n - 55)%nat.

(** Percent-decoding, the inverse used to compare encoded keys. *)
Fixpoint percentDecode (s : string) : string :=
  match s with
  | EmptyString => EmptyString
  | String c r =>
      if Ascii.eqb c "%"%char then
        match r with
        | String h (String l r') =>
            String (ascii_of_nat (hexValue h * 16 + hexValue l)) (percentDecode r')
        | _ => String c (percentDecode r)
        end
      else String c (percentDecode r)
  end.

Module AgentScript.

(** What the script embedded in a child window holds and has done. *)
Record AgentState := mkAgent {
  gameTitle : string;           (* the constant of the same name *)
  hasOpener : bool;             (* [window.opener] is present *)
  lines : list string;          (* texts of the children of #sp-mini-logs *)
  posted : list JsValue;        (* messages posted to the opener, oldest first *)
  saved : option string;        (* localStorage[gameKey] *)
  notesArea : string            (* value of #sp-mini-notes-area *)
}.

Definition DISPLAY_MAX : nat := 80.

Definition gameKey (a : AgentState) : string :=
  "sp_blanker_" +:+ encodeURIComponent (gameTitle a).

Definition post (data : JsValue) (a : AgentState) : AgentState :=
  if hasOpener a
  then mkAgent (gameTitle a) (hasOpener a) (lines a) (posted a ++ [data])
         (saved a) (notesArea a)
  else a.

Definition logMessage (lvl msg title : string) : JsValue :=
  JObj (<["type" := JStr "sp_log"]>
        (<["lvl" := JStr lvl]>
         (<["msg" := JStr msg]>
          (<["gameTitle" := JStr title]> ∅)))).

Definition noteMessage (key txt title : string) : JsValue :=
  JObj (<["type" := JStr "sp_note"]>
        (<["key" := JStr key]>
         (<["txt" := JStr txt]>
          (<["gameTitle" := JStr title]> ∅)))).

(** [addLog(lvl, msg)]; [stamp] is [new Date().toLocaleTimeString()].
    [msg.slice(0, 200)] counts UTF-16 code units and [String.substring]
    bytes: the two agree on ASCII text ([isAscii]), for which the shown
    line is stated. *)
Definition addLog (stamp lvl msg : string) (a : AgentState) : AgentState :=
  let d := stamp +:+ " " +:+ String.substring 0 200 msg in
  let shown := lines a ++ [d] in
  let shown' := if (DISPLAY_MAX <? length shown)%nat then tl shown else shown in
  post (logMessage lvl msg (gameTitle a))
    (mkAgent (gameTitle a) (hasOpener a) shown' (posted a) (saved a) (notesArea a)).

(** The wrapper the script installs on [console[m]] (the pass-through to
    the child's own console is not recorded). *)
Definition agentConsole (JSON_stringify : JsValue -> option string)
    (stamp : string) (m : Method) (args : list JsValue) (a : AgentState)
  : AgentState :=
  addLog stamp (methodName m) (flattenArgs JSON_stringify args) a.

(** The [error] listener of the child window. *)
Definition onError (stamp message filename : string) (lineno : Z)
    (a : AgentState) : AgentState :=
  addLog stamp "error"
    ("Uncaught: " +:+ message +:+ " (" +:+ filename +:+ ":" +:+ decimal lineno +:+ ")") a.

(** The [unhandledrejection] listener. *)
Definition onUnhandledRejection (stamp : string) (reason : JsValue)
    (a : AgentState) : AgentState :=
  addLog stamp "error" ("Unhandled promise: " +:+ ToString reason) a.

(** Click on the bin of the mini console. *)
Definition onClear (a : AgentState) : AgentState :=
  mkAgent (gameTitle a) (hasOpener a) [] (posted a) (saved a) (notesArea a).


(** The script as it starts in a window titled [title]: a saved note, when
    there is a non-empty one, fills the field. *)
Definition start (title : string) (opener : bool) (stored : option string)
  : AgentState :=
  mkAgent title opener [] [] stored
    (match stored with
     | Some s => if String.eqb s EmptyString then EmptyString else s
     | None => EmptyString
     end).

End AgentScript.

(** The hub's answer to every message an agent has posted, in order, all
    received at time [now]. *)
Definition deliver (now : Z) (msgs : list JsValue) (st : State) : State :=
  fold_left (fun s data => onMessage now data s) msgs st.

(** A sequence of console calls, each with its time. *)
Definition consoleCalls (JSON_stringify : JsValue -> option string)
    (calls : list (Z * Method * list JsValue)) (st : State) : State :=
  fold_left
    (fun s c => dispatch JSON_stringify (fst (fst c)) (EvConsole (snd (fst c)) (snd c)) s)
    calls st.

(** The entry the interceptor makes of a call. *)
Definition callEntry (JSON_stringify : JsValue -> option string)
    (c : Z * Method * list JsValue) : JsValue :=
  logEntry (fst (fst c)) (JStr (methodName (snd (fst c))))
    (JStr (flattenArgs JSON_stringify (snd c))).

(** The level recorded in a buffered entry. *)
Definition entryLevel (entry : JsValue) : JsValue :=
  default JUndefined (Get entry "lvl").

(** [l] is the end of [l']. *)
Definition isSuffix {A} (l l' : list A) : Prop := exists front, l' = front ++ l.

(** An event other than the loading of an import file. *)
Definition notImport (e : Event) : Prop :=
  match e with
  | EvImport _ => False
  | _ => True
  end.

(* ===================================================================== *)
(** ** The log buffer *)
(* ===================================================================== *)

Lemma lastN_length {A} (n : nat) (l : list A) :
  length (lastN n l) = Nat.min n (length l).
Proof. unfold lastN. rewrite length_skipn. lia. Qed.

Lemma lastN_app_lastN {A} (n : nat) (l r : list A) :
  lastN n (lastN n l ++ r) = lastN n (l ++ r).
Proof.
  unfold lastN. rewrite !length_app, length_skipn.
  destruct (Nat.le_gt_cases (length l) n) as [Hle | Hgt].
  - replace (length l - n)%nat with 0%nat by lia. simpl.
    f_equal. lia.
  - rewrite skipn_app, length_skipn.
    rewrite (skipn_app (length l + length r - n)).
    rewrite skipn_skipn.
    replace (length l - (length l - n) + length r - n + (length l - n))%nat
      with (length l + length r - n)%nat by lia.
    f_equal. f_equal. lia.
Qed.

(** The push-and-splice keeps exactly the last [MAX_LOGS] entries. *)
Lemma pushLog_lastN (e : JsValue) (logs : list JsValue) :
  pushLog e logs = lastN MAX_LOGS (logs ++ [e]).
Proof.
  unfold pushLog, lastN.
  destruct (MAX_LOGS <? length (logs ++ [e]))%nat eqn:E; [reflexivity|].
  apply Nat.ltb_ge in E.
  replace (length (logs ++ [e]) - MAX_LOGS)%nat with 0%nat by lia.
  reflexivity.
Qed.

Lemma pushLog_length (e : JsValue) (logs : list JsValue) :
  (length (pushLog e logs) <= MAX_LOGS)%nat.
Proof. rewrite pushLog_lastN, lastN_length. lia. Qed.

(** Any run of appends leaves the last [MAX_LOGS] entries, in append order. *)
Lemma pushLog_many (es logs : list JsValue) :
  es <> [] ->
  fold_left (fun l e => pushLog e l) es logs = lastN MAX_LOGS (logs ++ es).
Proof.
  revert logs. induction es as [|e es IH]; intros logs Hne; [congruence|].
  simpl. destruct es as [|e' es].
  - simpl. apply pushLog_lastN.
  - rewrite IH by discriminate. rewrite pushLog_lastN, lastN_app_lastN.
    rewrite <- app_assoc. reflexivity.
Qed.

Lemma renderConsoleLogs_logs (st : State) :
  forall st', (renderConsoleLogs st = Normal st' \/ renderConsoleLogs st = Throw st') ->
  consoleLogs st' = consoleLogs st /\ notesStore st' = notesStore st.
Proof.
  intros st' H. unfold renderConsoleLogs in H.
  destruct (if String.eqb (consoleFilter st) EmptyString then _ else _) as [logs|];
    [destruct (existsb entryThrows (lastN 120 logs))|];
    destruct H as [H|H]; inversion H; subst; auto.
Qed.

(** The interceptor's append respects the capacity, whatever the buffer held. *)
Lemma consoleMethod_bounded stringify now m args st st' :
  (consoleMethod stringify now m args st = Normal st' \/
   consoleMethod stringify now m args st = Throw st') ->
  consoleLogs st' =
    lastN MAX_LOGS (consoleLogs st ++
      [logEntry now (JStr (methodName m)) (JStr (flattenArgs stringify args))]) /\
  (length (consoleLogs st') <= MAX_LOGS)%nat.
Proof.
  intros H. unfold consoleMethod in H.
  apply renderConsoleLogs_logs in H. destruct H as [H _].
  simpl in H. rewrite H. split; [apply pushLog_lastN | apply pushLog_length].
Qed.

Lemma onConsoleClear_logs st : consoleLogs (onConsoleClear st) = [].
Proof.
  unfold onConsoleClear.
  destruct (renderConsoleLogs _) as [s|s] eqn:E.
  - assert (H := renderConsoleLogs_logs _ s (or_introl E)). simpl in *. tauto.
  - assert (H := renderConsoleLogs_logs _ s (or_intror E)). simpl in *. tauto.
Qed.

(** The relay's append respects the capacity as well. *)
Lemma relayLog_bounded now data st st' :
  (relayLog now data st = Normal st' \/ relayLog now data st = Throw st') ->
  exists entry,
    consoleLogs st' = lastN MAX_LOGS (consoleLogs st ++ [entry]) /\
    (length (consoleLogs st') <= MAX_LOGS)%nat.
Proof.
  unfold relayLog. set (entry := logEntry _ _ _).
  set (st2 := saveJSON _ _ _).
  assert (E2 : consoleLogs st2 = pushLog entry (consoleLogs st)) by reflexivity.
  clearbody st2. intros H. exists entry.
  assert (E : consoleLogs st' = consoleLogs st2).
  { destruct (String.eqb (activeTab st2) "console").
    - apply renderConsoleLogs_logs in H. apply H.
    - destruct H as [H|H]; inversion H; reflexivity. }
  rewrite E, E2. split; [apply pushLog_lastN | apply pushLog_length].
Qed.

(** [MAX_LOGS + k] appends to an empty buffer leave exactly [MAX_LOGS]
    entries: the appended ones without the first [k]. *)
Lemma pushLog_overflow (k : nat) (es : list JsValue) :
  length es = (MAX_LOGS + k)%nat ->
  fold_left (fun l e => pushLog e l) es [] = skipn k es /\
  length (fold_left (fun l e => pushLog e l) es []) = MAX_LOGS.
Proof.
  intros H. rewrite pushLog_many by (intros ->; discriminate H).
  rewrite app_nil_l. unfold lastN. rewrite H.
  replace (MAX_LOGS + k - MAX_LOGS)%nat with k by lia.
  split; [reflexivity|]. rewrite length_skipn, H. lia.
Qed.

(** What the import does with a file that only carries a [consoleLogs]
    array: the array becomes the buffer, untrimmed, and is written out. *)
Lemma import_logs_only (es : list JsValue) (st : State) :
  let st' := onImportLoad (Parsed (JObj (<["consoleLogs" := JArray es]> ∅))) st in
  consoleLogs st' = es /\ In (SetItem KEY_CONSOLE (JArray es)) (effects st').
Proof.
  unfold onImportLoad, importBody.
  cbn [Get]. map_lookup. cbn [truthy iterate JArray andThen].
  set (st3 := saveJSON _ _ _).
  assert (Hl : consoleLogs st3 = es) by reflexivity.
  assert (He : In (SetItem KEY_CONSOLE (JArr es ∅)) (effects st3)).
  { subst st3. cbn. rewrite in_app_iff. right. left. reflexivity. }
  clearbody st3. unfold renderConsoleLogs.
  destruct (if String.eqb _ EmptyString then _ else _) as [logs|];
    [destruct (existsb entryThrows (lastN 120 logs))|];
    cbn; rewrite ?in_app_iff; auto.
Qed.

(** C1 (log buffer capacity).  The two append paths and the clear keep the
    buffer within [MAX_LOGS] (lemmas above), but the import handler replaces
    the buffer by the imported array without trimming it: after importing a
    file with 401 entries the buffer holds 401 entries, and that array is
    what gets written to storage. *)
Theorem import_overflows_log_buffer (st : State) :
  length (consoleLogs (onImportLoad (Parsed overfullSave) st)) = 401%nat /\
  (MAX_LOGS < length (consoleLogs (onImportLoad (Parsed overfullSave) st)))%nat /\
  In (SetItem KEY_CONSOLE (JArray overfullLogs))
     (effects (onImportLoad (Parsed overfullSave) st)).
Proof.
  destruct (import_logs_only overfullLogs st) as [Hl He].
  unfold overfullSave. rewrite Hl.
  unfold overfullLogs at 1 2. rewrite repeat_length.
  repeat split; [unfold MAX_LOGS; lia | exact He].
Qed.

(* ===================================================================== *)
(** ** Import *)
(* ===================================================================== *)

Lemma alertsOf_app (a b : list Effect) : alertsOf (a ++ b) = alertsOf a ++ alertsOf b.
Proof.
  induction a as [|e a IH]; [reflexivity|].
  destruct e; simpl; rewrite IH; reflexivity.
Qed.

Lemma storeWrites_app (a b : list Effect) :
  storeWrites (a ++ b) = storeWrites a ++ storeWrites b.
Proof.
  induction a as [|e a IH]; [reflexivity|].
  destruct e; simpl; rewrite IH; reflexivity.
Qed.

(** Rendering touches nothing but the effects, to which it adds no alert
    and no storage write. *)
Lemma renderConsoleLogs_frame (st : State) :
  exists st',
    (renderConsoleLogs st = Normal st' \/ renderConsoleLogs st = Throw st') /\
    consoleLogs st' = consoleLogs st /\
    notesStore st' = notesStore st /\
    alertsOf (effects st') = alertsOf (effects st) /\
    storeWrites (effects st') = storeWrites (effects st).
Proof.
  unfold renderConsoleLogs.
  destruct (if String.eqb (consoleFilter st) EmptyString then _ else _) as [logs|];
    [destruct (existsb entryThrows (lastN 120 logs))|];
    eexists; (split; [eauto|]); cbn;
    rewrite ?alertsOf_app, ?storeWrites_app, ?app_nil_r; auto.
Qed.








(* ===================================================================== *)
(** ** Strings: first occurrence and replacement *)
(* ===================================================================== *)

Lemma sapp_cons (x : ascii) (a b : string) : String x a +:+ b = String x (a +:+ b).
Proof. reflexivity. Qed.

Lemma sapp_nil_l (a : string) : EmptyString +:+ a = a.
Proof. reflexivity. Qed.

(** Unfolding of [+:+] on constructors, in the goal or in a hypothesis. *)
Ltac sapp := simpl; rewrite ?sapp_cons, ?sapp_nil_l.
Ltac sapp_in H := simpl in H; rewrite ?sapp_cons, ?sapp_nil_l in H.

Lemma sapp_assoc (a b c : string) : (a +:+ b) +:+ c = a +:+ (b +:+ c).
Proof. induction a as [|x a IH]; sapp; [reflexivity | rewrite IH; reflexivity]. Qed.

Lemma sapp_nil_r (a : string) : a +:+ EmptyString = a.
Proof. induction a as [|x a IH]; sapp; [reflexivity | rewrite IH; reflexivity]. Qed.

Lemma slen_app (a b : string) :
  String.length (a +:+ b) = (String.length a + String.length b)%nat.
Proof. induction a as [|x a IH]; sapp; simpl; [reflexivity | rewrite IH; reflexivity]. Qed.

Lemma sapp_inv (a a' b b' : string) :
  a +:+ b = a' +:+ b' -> String.length a = String.length a' -> a = a' /\ b = b'.
Proof.
  revert a'. induction a as [|x a IH]; intros [|y a'] H L; sapp_in H; simpl in L;
    try discriminate; [auto|].
  injection H as -> H. destruct (IH a' H) as [-> ->]; [lia | auto].
Qed.

Lemma stripPrefix_spec (p s r : string) :
  stripPrefix p s = Some r <-> s = p +:+ r.
Proof.
  revert s. induction p as [|a p IH]; intros s; sapp.
  - split; [intros [= ->] | intros ->]; reflexivity.
  - destruct s as [|b s]; [split; discriminate|].
    destruct (Ascii.eqb_spec a b) as [->|Hne].
    + rewrite IH. split; [intros -> | intros [= ->]]; reflexivity.
    + split; [discriminate | intros [= E _]; congruence].
Qed.

Lemma splitFirst_sound (pat s pre post : string) :
  splitFirst pat s = Some (pre, post) -> s = pre +:+ pat +:+ post.
Proof.
  revert pre. induction s as [|c s IH]; intros pre; simpl.
  - destruct (stripPrefix pat EmptyString) as [rest|] eqn:E; [|discriminate].
    intros [= <- <-]. apply stripPrefix_spec in E. exact E.
  - destruct (stripPrefix pat (String c s)) as [rest|] eqn:E.
    + intros [= <- <-]. apply stripPrefix_spec in E. exact E.
    + destruct (splitFirst pat s) as [[pre0 post0]|]; [|discriminate].
      intros [= <- <-]. sapp. f_equal. apply IH. reflexivity.
Qed.

Lemma splitFirst_minimal (pat s pre post : string) :
  splitFirst pat s = Some (pre, post) ->
  forall a b, s = a +:+ pat +:+ b -> (String.length pre <= String.length a)%nat.
Proof.
  revert pre. induction s as [|c s IH]; intros pre; simpl.
  - destruct (stripPrefix pat EmptyString) as [rest|]; [|discriminate].
    intros [= <- <-] a b _. simpl. lia.
  - destruct (stripPrefix pat (String c s)) as [rest|] eqn:E.
    + intros [= <- <-] a b _. simpl. lia.
    + destruct (splitFirst pat s) as [[pre0 post0]|]; [|discriminate].
      intros [= <- <-] a b H. destruct a as [|x a].
      * sapp_in H. apply stripPrefix_spec in H. congruence.
      * sapp_in H. injection H as _ H. simpl.
        specialize (IH pre0 eq_refl a b H). lia.
Qed.

Lemma splitFirst_complete (pat s : string) :
  occursIn pat s -> exists pre post, splitFirst pat s = Some (pre, post).
Proof.
  intros (a & b & H). revert s H. induction a as [|x a IH]; intros s H.
  - sapp_in H. apply stripPrefix_spec in H.
    destruct s; simpl; rewrite H; eauto.
  - sapp_in H. subst s. simpl.
    destruct (stripPrefix pat _); [eauto|].
    destruct (IH _ eq_refl) as (pre & post & ->). eauto.
Qed.

Lemma splitFirst_firstAt (pat s pre post : string) :
  splitFirst pat s = Some (pre, post) <-> firstAt pat s pre post.
Proof.
  split.
  - intros H. split; [apply splitFirst_sound, H | apply splitFirst_minimal with post, H].
  - intros [Hs Hmin].
    destruct (splitFirst_complete pat s) as (pre' & post' & E).
    { exists pre, post. exact Hs. }
    pose proof (splitFirst_sound _ _ _ _ E) as Hs'.
    pose proof (splitFirst_minimal _ _ _ _ E _ _ Hs) as L1.
    pose proof (Hmin _ _ Hs') as L2.
    rewrite Hs in Hs'.
    destruct (sapp_inv _ _ _ _ Hs') as [-> H2]; [lia|].
    destruct (sapp_inv _ _ _ _ H2) as [_ ->]; [reflexivity|].
    exact E.
Qed.

Lemma splitFirst_none (pat s : string) :
  splitFirst pat s = None <-> ~ occursIn pat s.
Proof.
  split.
  - intros E H. destruct (splitFirst_complete _ _ H) as (pre & post & E'). congruence.
  - intros H. destruct (splitFirst pat s) as [[pre post]|] eqn:E; [|reflexivity].
    exfalso. apply H. exists pre, post. apply splitFirst_sound, E.
Qed.

Lemma noDollar_app (a b : string) : noDollar (a +:+ b) = noDollar a && noDollar b.
Proof.
  induction a as [|c a IH]; sapp; simpl; [reflexivity|].
  rewrite IH. destruct (negb _), (noDollar a), (noDollar b); reflexivity.
Qed.

(** A replacement text without dollar signs stands for itself. *)
Lemma GetSubstitution_plain (matched pre post repl : string) :
  noDollar repl = true -> GetSubstitution matched pre post repl = repl.
Proof.
  induction repl as [|c r IH]; simpl; [reflexivity|].
  destruct (Ascii.eqb c "$"); simpl; [discriminate|].
  intros H. rewrite IH by exact H. reflexivity.
Qed.

Lemma replace_absent (s pat repl : string) :
  ~ occursIn pat s -> Js.replace s pat repl = s.
Proof. intros H. unfold Js.replace. apply splitFirst_none in H. rewrite H. reflexivity. Qed.

Lemma replace_first (s pat repl pre post : string) :
  firstAt pat s pre post -> noDollar repl = true ->
  Js.replace s pat repl = pre +:+ repl +:+ post.
Proof.
  intros H D. unfold Js.replace. apply splitFirst_firstAt in H. rewrite H.
  rewrite GetSubstitution_plain by exact D. reflexivity.
Qed.

Lemma noDollar_escapeChar (c : ascii) :
  Ascii.eqb c "$" = false -> noDollar (escapeChar c) = true.
Proof.
  destruct c as [[] [] [] [] [] [] [] []]; vm_compute; congruence.
Qed.

Lemma concat_empty_cons (x : string) (xs : list string) :
  String.concat EmptyString (x :: xs) = x +:+ String.concat EmptyString xs.
Proof. destruct xs; simpl; [rewrite sapp_nil_r|]; reflexivity. Qed.

Lemma noDollar_concat_escape (l : list ascii) :
  noDollar (string_of_list_ascii l) = true ->
  noDollar (String.concat EmptyString (List.map escapeChar l)) = true.
Proof.
  induction l as [|c l IH]; [reflexivity|].
  intros H. simpl in H. apply andb_prop in H. destruct H as [Hc Hl].
  apply negb_true_iff in Hc.
  change (List.map escapeChar (c :: l)) with (escapeChar c :: List.map escapeChar l).
  rewrite concat_empty_cons, noDollar_app, (noDollar_escapeChar c Hc), IH by exact Hl.
  reflexivity.
Qed.

Lemma noDollar_QuoteJSONString (s : string) :
  noDollar s = true -> noDollar (QuoteJSONString s) = true.
Proof.
  intros H. unfold QuoteJSONString. rewrite !noDollar_app.
  rewrite noDollar_concat_escape; [reflexivity|].
  rewrite string_of_list_ascii_of_string. exact H.
Qed.

(** The agent carries a dollar sign only if the title does. *)
Lemma noDollar_inject (title : string) :
  noDollar title = true -> noDollar (Agent.inject title +:+ BODY_END) = true.
Proof.
  intros H. unfold Agent.inject. rewrite !noDollar_app.
  rewrite (noDollar_QuoteJSONString _ H).
  assert (Hh : noDollar Agent.agentHead = true) by (vm_compute; reflexivity).
  assert (Ht : noDollar Agent.agentTail = true) by (vm_compute; reflexivity).
  rewrite Hh, Ht. reflexivity.
Qed.

(* ===================================================================== *)
(** ** The injection patcher *)
(* ===================================================================== *)

Lemma toggle_unpatched (f : Factory) (st : State) :
  unpatched f st -> patched f (onInjectToggle st) /\ injectEnabled (onInjectToggle st) = true.
Proof.
  intros (He & Hm & Ho). unfold patched, onInjectToggle, patchMakeBlankerHTML.
  cbn. rewrite He, Ho, Hm. cbn. auto.
Qed.

Lemma toggle_patched (f : Factory) (st : State) :
  patched f st ->
  patched f (onInjectToggle st) /\
  injectEnabled (onInjectToggle st) = negb (injectEnabled st).
Proof.
  intros (Ho & Hm). unfold patched, onInjectToggle, patchMakeBlankerHTML.
  cbn. rewrite Ho. destruct (injectEnabled st); cbn; rewrite ?Ho; cbn; auto.
Qed.

(** The DOMContentLoaded retry changes nothing once the factory is captured. *)
Lemma domReady_patched (f : Factory) (st : State) :
  patched f st -> patched f (patchMakeBlankerHTML st) /\
  injectEnabled (patchMakeBlankerHTML st) = injectEnabled st.
Proof.
  intros (Ho & Hm). unfold patched, patchMakeBlankerHTML.
  rewrite Ho. destruct (injectEnabled st) eqn:E; cbn; rewrite ?Ho, ?E; cbn; rewrite ?E; auto.
Qed.

Lemma call_patched (f : Factory) (st : State) (title src : string) (autoFS : bool) :
  patched f st ->
  callMakeBlankerHTML st title src autoFS =
    Some (if injectEnabled st then wrappedFactory f title src autoFS
          else f title src autoFS).
Proof.
  intros (Ho & Hm). unfold callMakeBlankerHTML. rewrite Hm, Ho.
  destruct (injectEnabled st); reflexivity.
Qed.

(** Any number of toggles after the first keeps the captured reference and
    never stacks a wrapper on a wrapper. *)
Lemma toggles_patched (f : Factory) (n : nat) (st : State) :
  unpatched f st ->
  patched f (Nat.iter (S n) onInjectToggle st) /\
  injectEnabled (Nat.iter (S n) onInjectToggle st) = Nat.even n.
Proof.
  intros U. induction n as [|n [IHp IHe]].
  - apply toggle_unpatched, U.
  - change (Nat.iter (S (S n)) onInjectToggle st)
      with (onInjectToggle (Nat.iter (S n) onInjectToggle st)).
    destruct (toggle_patched f _ IHp) as [Hp He]. split; [exact Hp|].
    rewrite He, IHe, Nat.even_succ, <- Nat.negb_even. reflexivity.
Qed.

(** C3, the claim as stated fails: after enable, disable, enable the factory
    is wrapped again, so its document differs from the never-patched one. *)
Lemma patch_cycle_counterexample :
  let st := launcherState plainFactory in
  callMakeBlankerHTML (onInjectToggle (onInjectToggle (onInjectToggle st)))
    "Pong" "pong.html" false
  <> callMakeBlankerHTML st "Pong" "pong.html" false.
Proof.
  cbv zeta. intros H.
  apply (f_equal (option_map String.length)) in H.
  vm_compute in H. discriminate H.
Qed.

(** C3 (amended).  From a launcher that was never patched: the first enable
    captures the factory and the captured reference is the same after every
    later toggle; a disable puts exactly that function back, so the factory
    answers as if never patched; a re-enable wraps the captured function
    once, so the factory answers as after the first enable. *)
Theorem patch_cycle_amended (f : Factory) (st : State)
    (title src : string) (autoFS : bool) :
  unpatched f st ->
  let on1 := onInjectToggle st in
  let off := onInjectToggle on1 in
  let on2 := onInjectToggle off in
  (forall n, origMakeBlankerHTML (Nat.iter (S n) onInjectToggle st) = Some (External f)) /\
  makeBlankerHTML off = Some (External f) /\
  callMakeBlankerHTML off title src autoFS = callMakeBlankerHTML st title src autoFS /\
  callMakeBlankerHTML off title src autoFS = Some (f title src autoFS) /\
  callMakeBlankerHTML on2 title src autoFS = Some (wrappedFactory f title src autoFS) /\
  callMakeBlankerHTML on2 title src autoFS = callMakeBlankerHTML on1 title src autoFS.
Proof.
  intros U on1 off on2.
  destruct (toggle_unpatched f st U) as [P1 E1].
  fold on1 in P1, E1.
  destruct (toggle_patched f on1 P1) as [P2 E2].
  destruct (toggle_patched f off P2) as [P3 E3].
  fold off in P2, E2, P3, E3. fold on2 in P3, E3.
  rewrite E1 in E2. rewrite E2 in E3.
  split; [intros n; apply (toggles_patched f n st U)|].
  split; [destruct P2 as [_ Hm]; rewrite Hm, E2; reflexivity|].
  rewrite (call_patched f off _ _ _ P2).
  rewrite (call_patched f on2 _ _ _ P3).
  rewrite (call_patched f on1 _ _ _ P1).
  rewrite E1, E2, E3.
  destruct U as (_ & Hm & _). unfold callMakeBlankerHTML. rewrite Hm.
  cbv [negb]. repeat split.
Qed.

(** [patch_cycle_amended] on the sample launcher. *)
Lemma patch_cycle_amended_witness :
  let st := launcherState plainFactory in
  callMakeBlankerHTML (onInjectToggle (onInjectToggle st)) "Pong" "pong.html" false
    = Some "<html><body>Pong</body></html>" /\
  callMakeBlankerHTML (onInjectToggle (onInjectToggle (onInjectToggle st)))
    "Pong" "pong.html" false
    = callMakeBlankerHTML (onInjectToggle st) "Pong" "pong.html" false.
Proof.
  cbv zeta.
  assert (U : unpatched plainFactory (launcherState plainFactory)).
  { repeat split. }
  destruct (patch_cycle_amended plainFactory _ "Pong" "pong.html" false U)
    as (_ & _ & _ & Hoff & _ & Hon).
  split; [exact Hoff | exact Hon].
Defined.

(** C6, the claim as stated fails: a document without the lower-case
    end-of-body tag comes back from the wrapped factory as it is, without
    the agent. *)
Lemma wrapped_without_marker_counterexample :
  let st := onInjectToggle (launcherState bareFactory) in
  callMakeBlankerHTML st "Pong" "pong.html" false
    = Some (bareFactory "Pong" "pong.html" false) /\
  ~ occursIn (Agent.inject "Pong") (bareFactory "Pong" "pong.html" false).
Proof.
  cbv zeta. split.
  - vm_compute. reflexivity.
  - apply splitFirst_none. vm_compute. reflexivity.
Qed.

(** A title with a replacement pattern: the agent's text is altered on its
    way into the document (here [$&] becomes the end-of-body tag). *)
Lemma wrapped_dollar_title :
  wrappedFactory plainFactory "a$&b" "x.html" false
  <> "<html><body>a$&b" +:+ Agent.inject "a$&b" +:+ BODY_END +:+ "</html>".
Proof.
  intros H. apply (f_equal String.length) in H. vm_compute in H. discriminate H.
Qed.

(** C6 (amended).  A call to the wrapped factory hands its three arguments
    to the captured original and nothing else of the original is consulted;
    when the original's document contains the end-of-body tag and the title
    holds no dollar sign, the result is that document with the agent
    inserted right before the first such tag and every other character
    kept; when the document contains no such tag it is returned as it is. *)
Theorem wrapped_factory_amended (f : Factory) (st : State)
    (title src : string) (autoFS : bool) :
  makeBlankerHTML st = Some Wrapper ->
  origMakeBlankerHTML st = Some (External f) ->
  (forall pre post,
     firstAt BODY_END (f title src autoFS) pre post -> noDollar title = true ->
     callMakeBlankerHTML st title src autoFS =
       Some (pre +:+ Agent.inject title +:+ BODY_END +:+ post)) /\
  (~ occursIn BODY_END (f title src autoFS) ->
     callMakeBlankerHTML st title src autoFS = Some (f title src autoFS)) /\
  (forall g, g title src autoFS = f title src autoFS ->
     callMakeBlankerHTML (setOrig (Some (External g)) st) title src autoFS =
     callMakeBlankerHTML st title src autoFS).
Proof.
  intros Hm Ho. unfold callMakeBlankerHTML. cbn. rewrite Hm, Ho.
  unfold wrappedFactory. split; [|split].
  - intros pre post Hf Hd. f_equal.
    rewrite (replace_first _ _ _ pre post Hf (noDollar_inject title Hd)).
    rewrite sapp_assoc. reflexivity.
  - intros Hn. f_equal. apply replace_absent, Hn.
  - intros g Hg. rewrite Hg. reflexivity.
Qed.

(** [wrapped_factory_amended] on the sample launcher, once enabled. *)
Lemma wrapped_factory_amended_witness :
  callMakeBlankerHTML (onInjectToggle (launcherState plainFactory)) "Pong" "pong.html" false
  = Some ("<html><body>Pong" +:+ Agent.inject "Pong" +:+ BODY_END +:+ "</html>").
Proof.
  apply (proj1 (wrapped_factory_amended plainFactory
                  (onInjectToggle (launcherState plainFactory))
                  "Pong" "pong.html" false eq_refl eq_refl)).
  - apply splitFirst_firstAt. vm_compute. reflexivity.
  - vm_compute. reflexivity.
Defined.

(* ===================================================================== *)
(** ** The message listener and the export *)
(* ===================================================================== *)

Lemma strictEqStr_true (v : JsValue) (s : string) :
  strictEqStr v s = true <-> v = JStr s.
Proof.
  destruct v; simpl; try (split; [discriminate | intros H; discriminate H]).
  rewrite String.eqb_eq. split; [intros -> | intros [= ->]]; reflexivity.
Qed.

Lemma strictEqStr_false (v : JsValue) (s : string) :
  v <> JStr s -> strictEqStr v s = false.
Proof.
  intros H. destruct (strictEqStr v s) eqn:E; [|reflexivity].
  apply strictEqStr_true in E. contradiction.
Qed.

(** C7, the claim as stated fails: a message with the log discriminant but
    none of the fields of a log relay is not dropped; an entry is appended
    to the buffer and the buffer is written to storage. *)
Lemma malformed_log_relay_counterexample :
  let st := onMessage 5 bareLogMessage (idleState [] ∅) in
  wellFormedRelay bareLogMessage = false /\
  consoleLogs st = [logEntry 5 JUndefined (JStr "[undefined] undefined")] /\
  storeWrites (effects st) = [KEY_CONSOLE].
Proof. cbv zeta. repeat split; vm_compute; reflexivity. Qed.

(** C7 (amended).  A message whose data is not an object, or whose [type] is
    neither of the two discriminants, is ignored: the listener leaves the
    whole state as it was and produces no effect at all. *)
Theorem unrecognised_message_ignored (now : Z) (data : JsValue) (st : State) :
  typeofObject data = false \/
  data = JNull \/
  (discriminant data <> JStr "sp_log" /\ discriminant data <> JStr "sp_note") ->
  onMessage now data st = st.
Proof.
  intros [H | [-> | [Hl Hn]]]; unfold onMessage.
  - rewrite H. rewrite orb_true_r. reflexivity.
  - reflexivity.
  - destruct (negb (truthy data) || negb (typeofObject data)); [reflexivity|].
    unfold discriminant in Hl, Hn.
    rewrite (strictEqStr_false _ _ Hl), (strictEqStr_false _ _ Hn). reflexivity.
Qed.

(** [unrecognised_message_ignored] on a string, on an array and on an
    object with a foreign discriminant. *)
Lemma unrecognised_message_ignored_witness :
  let st := idleState [logEntry 1 (JStr "log") (JStr "kept")] ∅ in
  onMessage 5 (JStr "sp_log") st = st /\
  onMessage 5 (JArray [JStr "sp_log"]) st = st /\
  onMessage 5 (JObj (<["type" := JStr "webpackOk"]> ∅)) st = st.
Proof.
  cbv zeta. split; [|split].
  - apply unrecognised_message_ignored. left. reflexivity.
  - apply unrecognised_message_ignored. right. right.
    split; vm_compute; discriminate.
  - apply unrecognised_message_ignored. right. right.
    split; vm_compute; discriminate.
Defined.





(** The [sp_note] branch on a key that only names an inherited member: the
    registry is left as it is and written out. *)
Lemma relayNote_inherited (now : Z) (data : JsValue) (st : State) :
  let k := ToString (default JUndefined (Get data "key")) in
  inheritedOnly (notesStore st) k = true ->
  relayNote now data st =
    Normal (saveNotes (emit (PrototypeWrite k "ts" (JNum now))
              (emit (PrototypeWrite k "notes" (default JUndefined (Get data "txt"))) st))).
Proof. intros k Hi. unfold relayNote. fold k. rewrite Hi. reflexivity. Qed.




(** C9, the claim as stated fails: the full save has no [exportedAt]
    property; the export time is stored under [exported]. *)
Lemma full_save_counterexample :
  Get (fullSave "2024-05-01T10:00:00.000Z" (idleState [] ∅)) "exportedAt"
    = Some JUndefined /\
  Get (fullSave "2024-05-01T10:00:00.000Z" (idleState [] ∅)) "exported"
    = Some (JStr "2024-05-01T10:00:00.000Z").
Proof. split; vm_compute; reflexivity. Qed.

(** C9 (amended).  "Download full save" hands to the download an object with
    exactly four properties: [exported], the ISO time string; [version],
    the integer 1; [notes], the registry; [consoleLogs], the buffer in
    order. *)
Theorem full_save_shape (now : Z) (iso : string) (st : State) :
  exists name props,
    effects (onDownloadAll now iso st) = effects st ++ [Download name (JObj props)] /\
    props !! "exported" = Some (JStr iso) /\
    props !! "version" = Some (JNum 1) /\
    props !! "notes" = Some (JObj (notesStore st)) /\
    props !! "consoleLogs" = Some (JArray (consoleLogs st)) /\
    forall field, props !! field <> None <-> In field fullSaveFields.
Proof.
  eexists. eexists. split; [reflexivity|].
  repeat split; try (map_lookup; reflexivity).
  - intros H.
    destruct (decide (field = "exported")) as [->|H1]; [simpl; auto|].
    destruct (decide (field = "version")) as [->|H2]; [simpl; auto|].
    destruct (decide (field = "notes")) as [->|H3]; [simpl; auto|].
    destruct (decide (field = "consoleLogs")) as [->|H4]; [simpl; auto|].
    rewrite !lookup_insert_ne, lookup_empty in H by congruence. contradiction.
  - intros [<- | [<- | [<- | [<- | []]]]]; map_lookup; discriminate.
Qed.

(* ===================================================================== *)
(** ** Notes: edits, the debounce timer and key switches *)
(* ===================================================================== *)

Lemma recordsOnly_lookup (reg : gmap string JsValue) (k : string) :
  recordsOnly reg -> reg !! k = None \/ exists rec, reg !! k = Some (JObj rec).
Proof.
  intros H. destruct (reg !! k) as [v|] eqn:E; [right | left; reflexivity].
  specialize (H k v E). destruct v; try discriminate. eauto.
Qed.

Lemma recordsOnly_insert (reg : gmap string JsValue) (k : string) rec :
  recordsOnly reg -> recordsOnly (<[k := JObj rec]> reg).
Proof. intros H. apply map_Forall_insert_2; [reflexivity | exact H]. Qed.


(** Writing a text under [k] in a registry of records: the record under [k]
    (created if absent) gets the text; no other key changes. *)
Lemma writeNote_spec (k : string) (text title : JsValue) (now : Z)
    (reg : gmap string JsValue) :
  recordsOnly reg ->
  exists rec,
    writeNote k text now (ensureRecord k title now reg) = Some (<[k := JObj rec]> reg) /\
    rec !! "notes" = Some text.
Proof.
  intros Hr. destruct (recordsOnly_lookup _ k Hr) as [E | [rec E]].
  - unfold ensureRecord, writeNote, noteAt. rewrite E. cbn.
    rewrite lookup_insert_eq. cbn. rewrite insert_insert_eq.
    eexists. split; [reflexivity|]. map_lookup. reflexivity.
  - unfold ensureRecord, writeNote, noteAt. rewrite E. cbn. rewrite E. cbn.
    eexists. split; [reflexivity|]. map_lookup. reflexivity.
Qed.

(** One edit of the active note [k]: the text is in the registry at once,
    the pending timer is replaced by one due a delay later, nothing is
    written yet, and no other key changes. *)
Lemma onNotesInput_spec (now : Z) (x : string) (k : string) (st : State) :
  currentNoteKey st = Some k ->
  recordsOnly (notesStore st) ->
  let st' := onNotesInput now x st in
  noteSaveTimer st' = Some (now + NOTE_SAVE_DELAY) /\
  noteText (notesStore st') k = JStr x /\
  recordsOnly (notesStore st') /\
  effects st' = effects st /\
  currentNoteKey st' = Some k /\
  (forall k', k' <> k -> notesStore st' !! k' = notesStore st !! k').
Proof.
  intros Hk Hr. unfold onNotesInput.
  change (currentNoteKey (setArea x st)) with (currentNoteKey st). rewrite Hk.
  change (notesStore (setArea x st)) with (notesStore st).
  change (notesArea (setArea x st)) with x.
  destruct (writeNote_spec k (JStr x) (resolveTitle (catalog (setArea x st)) k) now _ Hr)
    as (rec & -> & Hn).
  cbn. unfold noteText, noteAt. rewrite lookup_insert_eq. cbn. rewrite Hn. cbn.
  repeat split; auto.
  - apply recordsOnly_insert, Hr.
  - intros k' Hne. apply lookup_insert_ne. congruence.
Qed.

(** Without an active note the input changes the area only. *)
Lemma onNotesInput_idle (now : Z) (x : string) (st : State) :
  currentNoteKey st = None ->
  let st' := onNotesInput now x st in
  noteSaveTimer st' = noteSaveTimer st /\ notesStore st' = notesStore st /\
  effects st' = effects st /\ currentNoteKey st' = None.
Proof.
  intros Hk. unfold onNotesInput.
  change (currentNoteKey (setArea x st)) with (currentNoteKey st). rewrite Hk.
  cbn. auto.
Qed.

(** A change of the selection leaves registry, timer and effects alone. *)
Lemma loadNoteForKey_spec (key : string) (st : State) :
  let st' := loadNoteForKey key st in
  noteSaveTimer st' = noteSaveTimer st /\ notesStore st' = notesStore st /\
  effects st' = effects st /\
  currentNoteKey st' = (if String.eqb key EmptyString then None else Some key).
Proof.
  unfold loadNoteForKey. destruct (String.eqb key EmptyString); cbn; auto.
Qed.

(** A flush writes the whole registry once and clears the timer. *)
Lemma noteTimerFire_spec (st : State) :
  let st' := noteTimerFire st in
  effects st' = effects st ++ [noteWrite (notesStore st)] /\
  noteSaveTimer st' = None /\ notesStore st' = notesStore st /\
  currentNoteKey st' = currentNoteKey st.
Proof. cbn. auto. Qed.






Section Debounce.
Variable JSON_stringify : JsValue -> option string.
Variable tie : bool.









Lemma uncaught_render_notes (st : State) :
  notesStore (uncaught (renderConsoleLogs st)) = notesStore st.
Proof.
  destruct (renderConsoleLogs st) as [s|s] eqn:E; cbn.
  - apply (renderConsoleLogs_logs _ s (or_introl E)).
  - apply (renderConsoleLogs_logs _ s (or_intror E)).
Qed.

Lemma patchMakeBlankerHTML_notes (st : State) :
  notesStore (patchMakeBlankerHTML st) = notesStore st.
Proof.
  unfold patchMakeBlankerHTML. destruct (negb (injectEnabled st)).
  - destruct (origMakeBlankerHTML st); reflexivity.
  - destruct (origMakeBlankerHTML st) eqn:Eo, (makeBlankerHTML st) eqn:Em;
      cbn; rewrite ?Eo; reflexivity.
Qed.

(** Apart from an import, no event puts anything but a record into a
    registry of records. *)
Lemma dispatch_recordsOnly (now : Z) (e : Event) (st : State) :
  (forall r, e <> EvImport r) ->
  recordsOnly (notesStore st) ->
  recordsOnly (notesStore (dispatch JSON_stringify now e st)).
Proof.
  intros Hi Hr. destruct e; cbn [dispatch].
  - destruct (consoleMethod JSON_stringify now m args st) as [s|s] eqn:E;
      unfold consoleMethod in E.
    + assert (H := proj2 (renderConsoleLogs_logs _ s (or_introl E))).
      rewrite H. exact Hr.
    + assert (H := proj2 (renderConsoleLogs_logs _ s (or_intror E))).
      rewrite H. exact Hr.
  - unfold onConsoleClear. rewrite uncaught_render_notes. exact Hr.
  - unfold onFilter. rewrite uncaught_render_notes. exact Hr.
  - unfold onTab, populateGameSelect.
    destruct (String.eqb tab "notes"); [|exact Hr].
    destruct (existsb _ _); [exact Hr|].
    rewrite (proj1 (proj2 (loadNoteForKey_spec _ _))). exact Hr.
  - rewrite (proj1 (proj2 (loadNoteForKey_spec _ _))). exact Hr.
  - destruct (currentNoteKey st) as [k|] eqn:Ek.
    + apply (onNotesInput_spec now text k st Ek Hr).
    + rewrite (proj1 (proj2 (onNotesInput_idle now text st Ek))). exact Hr.
  - unfold onInjectToggle. rewrite patchMakeBlankerHTML_notes. exact Hr.
  - rewrite patchMakeBlankerHTML_notes. exact Hr.
  - unfold onMessage.
    destruct (negb (truthy data) || negb (typeofObject data)); [exact Hr|].
    set (type := default JUndefined (Get data "type")).
    assert (L : forall s', (relayLog now data st = Normal s' \/ relayLog now data st = Throw s') ->
                notesStore s' = notesStore st).
    { unfold relayLog. set (st2 := saveJSON _ _ _).
      assert (E2 : notesStore st2 = notesStore st) by reflexivity. clearbody st2.
      intros s' H. rewrite <- E2.
      destruct (String.eqb (activeTab st2) "console").
      - apply renderConsoleLogs_logs in H. apply H.
      - destruct H as [H|H]; inversion H; reflexivity. }
    assert (N : forall s, recordsOnly (notesStore s) ->
                recordsOnly (notesStore (uncaught (relayNote now data s)))).
    { intros s Hs. unfold relayNote.
      destruct (inheritedOnly _ _); [exact Hs|].
      destruct (writeNote_spec (ToString (default JUndefined (Get data "key")))
                  (default JUndefined (Get data "txt"))
                  (default JUndefined (Get data "gameTitle")) now _ Hs) as (rec & -> & _).
      cbn. apply recordsOnly_insert, Hs. }
    destruct (strictEqStr type "sp_log").
    + destruct (relayLog now data st) as [s|s] eqn:E; cbn [andThen uncaught].
      * assert (Es := L s (or_introl eq_refl)).
        destruct (strictEqStr type "sp_note"); [apply N|cbn]; rewrite Es; exact Hr.
      * cbn. rewrite (L s (or_intror eq_refl)). exact Hr.
    + cbn [andThen]. destruct (strictEqStr type "sp_note"); [apply N|]; exact Hr.
  - exact Hr.
  - exact Hr.
  - exact Hr.
  - exfalso. apply (Hi r). reflexivity.
  - unfold onClearAll. destruct (negb confirmed); [exact Hr|].
    set (st2 := saveNotes _).
    assert (E2 : notesStore st2 = ∅) by reflexivity. clearbody st2.
    destruct (renderConsoleLogs st2) as [s|s] eqn:E; cbn;
      [rewrite (proj2 (renderConsoleLogs_logs _ s (or_introl E)))
      |rewrite (proj2 (renderConsoleLogs_logs _ s (or_intror E)))];
      rewrite E2; apply map_Forall_empty.
Qed.

End Debounce.







(* ===================================================================== *)
(** ** Further properties: the console buffer *)
(* ===================================================================== *)

Lemma renderConsoleLogs_effects (st : State) :
  exists painted,
    (renderConsoleLogs st = Normal (emit (Render painted) st) \/
     renderConsoleLogs st = Throw (emit (Render []) st) \/
     renderConsoleLogs st = Throw st).
Proof.
  unfold renderConsoleLogs.
  destruct (if String.eqb (consoleFilter st) EmptyString then _ else _) as [logs|];
    [destruct (existsb entryThrows (lastN 120 logs))|].
  - exists []. right. left. reflexivity.
  - exists (lastN 120 logs). left. reflexivity.
  - exists []. right. right. reflexivity.
Qed.

Lemma dispatch_console_logs (JSON_stringify : JsValue -> option string)
    (now : Z) (m : Method) (args : list JsValue) (st : State) :
  consoleLogs (dispatch JSON_stringify now (EvConsole m args) st) =
  pushLog (logEntry now (JStr (methodName m)) (JStr (flattenArgs JSON_stringify args)))
    (consoleLogs st).
Proof.
  cbn [dispatch].
  destruct (consoleMethod JSON_stringify now m args st) as [s|s] eqn:E.
  - destruct (consoleMethod_bounded _ _ _ _ _ s (or_introl E)) as [H _].
    rewrite H. symmetry. apply pushLog_lastN.
  - destruct (consoleMethod_bounded _ _ _ _ _ s (or_intror E)) as [H _].
    rewrite H. symmetry. apply pushLog_lastN.
Qed.

(** X1.  A console call whose arguments are printable (numbers are safe
    integers, and no object or array met by the conversion to text has a
    [toString] or [join] property of its own) is first handed to the
    original method with the same arguments; then one entry with the
    method's name as level and the flattened arguments as message is
    appended, the buffer keeps its last [MAX_LOGS] entries and is written to
    storage as it is in memory; the registry is untouched. *)
Theorem console_call_recorded (JSON_stringify : JsValue -> option string)
    (now : Z) (m : Method) (args : list JsValue) (st : State) :
  forallb printable args = true ->
  let st' := dispatch JSON_stringify now (EvConsole m args) st in
  consoleLogs st' =
    lastN MAX_LOGS (consoleLogs st ++
      [logEntry now (JStr (methodName m)) (JStr (flattenArgs JSON_stringify args))]) /\
  (length (consoleLogs st') <= MAX_LOGS)%nat /\
  notesStore st' = notesStore st /\
  exists painted,
    effects st' = effects st
      ++ [PassThrough m args; SetItem KEY_CONSOLE (JArray (consoleLogs st'))]
      ++ painted /\
    (painted = [] \/ exists shown, painted = [Render shown]).
Proof.
  intros _. cbn [dispatch]. unfold consoleMethod.
  set (entry := logEntry _ _ _).
  set (st3 := saveJSON _ _ _).
  assert (E3 : consoleLogs st3 = pushLog entry (consoleLogs st)) by reflexivity.
  assert (N3 : notesStore st3 = notesStore st) by reflexivity.
  assert (F3 : effects st3 = effects st
                 ++ [PassThrough m args; SetItem KEY_CONSOLE (JArray (consoleLogs st3))]).
  { subst st3. cbn. rewrite <- app_assoc. reflexivity. }
  clearbody st3.
  destruct (renderConsoleLogs_effects st3) as (painted & [-> | [-> | ->]]); cbn;
    rewrite E3, ?N3; (split; [apply pushLog_lastN|]);
    (split; [apply pushLog_length|]); (split; [reflexivity|]).
  - exists [Render painted]. rewrite F3, E3, <- app_assoc. split; [reflexivity|].
    right. eauto.
  - exists [Render []]. rewrite F3, E3, <- app_assoc. split; [reflexivity|].
    right. eauto.
  - exists []. cbn. rewrite F3, E3. auto.
Qed.

(** [console_call_recorded] on a warning with a text and a number. *)
Lemma console_call_recorded_witness :
  consoleLogs (dispatch (fun _ => None) 7 (EvConsole Mwarn [JStr "lives"; JNum 3])
                 (idleState [] ∅))
  = [logEntry 7 (JStr "warn") (JStr "lives 3")].
Proof.
  rewrite (proj1 (console_call_recorded (fun _ => None) 7 Mwarn [JStr "lives"; JNum 3]
                    (idleState [] ∅) eq_refl)).
  vm_compute. reflexivity.
Defined.

(** X2.  After any non-empty sequence of console calls the buffer holds the
    last [MAX_LOGS] of the entries it held before followed by the entries
    of the calls, in call order. *)
Theorem console_calls_keep_last (JSON_stringify : JsValue -> option string)
    (calls : list (Z * Method * list JsValue)) (st : State) :
  calls <> [] ->
  consoleLogs (consoleCalls JSON_stringify calls st) =
    lastN MAX_LOGS (consoleLogs st ++ List.map (callEntry JSON_stringify) calls).
Proof.
  intros Hne.
  assert (G : forall cs s,
             consoleLogs (consoleCalls JSON_stringify cs s) =
             fold_left (fun l e => pushLog e l)
               (List.map (callEntry JSON_stringify) cs) (consoleLogs s)).
  { induction cs as [|[[t m] args] cs IH]; intros s; [reflexivity|].
    unfold consoleCalls in *. cbn [fold_left List.map fst snd].
    rewrite IH, dispatch_console_logs. reflexivity. }
  rewrite G. apply pushLog_many. destruct calls; [congruence | discriminate].
Qed.

(** [console_calls_keep_last] on 402 calls into an empty buffer. *)
Lemma console_calls_keep_last_witness :
  let calls := repeat (0, Mlog, [JStr "tick"]) 401 ++ [(1, Mwarn, [JStr "last"])] in
  let st' := consoleCalls (fun _ => None) calls (idleState [] ∅) in
  length (consoleLogs st') = 400%nat /\
  last (consoleLogs st') = Some (logEntry 1 (JStr "warn") (JStr "last")).
Proof.
  cbv zeta.
  rewrite (console_calls_keep_last (fun _ => None)
             (repeat (0, Mlog, [JStr "tick"]) 401 ++ [(1, Mwarn, [JStr "last"])])
             (idleState [] ∅)).
  - split; vm_compute; reflexivity.
  - destruct (repeat _ 401) eqn:E; [discriminate E | discriminate].
Defined.

(** X3.  A log relay with level [lvl], message [msg] and title [title] puts
    into the buffer one entry with that level and the message
    ["[title] msg"], under the same bound as a console call, writes the
    buffer to storage and leaves the registry alone; the list is repainted
    only while the console tab is the active one. *)
Theorem relay_log_entry (now : Z) (data lvl : JsValue) (msg title : string)
    (st : State) :
  Get data "type" = Some (JStr "sp_log") ->
  Get data "lvl" = Some lvl ->
  Get data "msg" = Some (JStr msg) ->
  Get data "gameTitle" = Some (JStr title) ->
  let st' := onMessage now data st in
  consoleLogs st' =
    lastN MAX_LOGS (consoleLogs st ++
      [logEntry now lvl (JStr ("[" +:+ title +:+ "] " +:+ msg))]) /\
  notesStore st' = notesStore st /\
  storeWrites (effects st') = storeWrites (effects st) ++ [KEY_CONSOLE] /\
  (activeTab st <> "console" ->
   effects st' = effects st ++ [SetItem KEY_CONSOLE (JArray (consoleLogs st'))]).
Proof.
  intros Ht Hl Hm Hg st'.
  assert (Hobj : negb (truthy data) || negb (typeofObject data) = false).
  { destruct data; try discriminate; reflexivity. }
  assert (E : st' = uncaught (relayLog now data st)).
  { subst st'. unfold onMessage. rewrite Hobj, Ht. cbn [default from_option id strictEqStr].
    rewrite String.eqb_refl.
    replace (String.eqb "sp_log" "sp_note") with false by reflexivity.
    destruct (relayLog now data st); reflexivity. }
  clearbody st'. subst st'. unfold relayLog. rewrite Hl, Hm, Hg.
  cbn [default from_option id ToString].
  set (entry := logEntry _ _ _).
  set (st2 := saveJSON _ _ _).
  assert (E2 : consoleLogs st2 = pushLog entry (consoleLogs st)) by reflexivity.
  assert (N2 : notesStore st2 = notesStore st) by reflexivity.
  assert (F2 : effects st2 = effects st ++ [SetItem KEY_CONSOLE (JArray (consoleLogs st2))])
    by reflexivity.
  assert (T2 : activeTab st2 = activeTab st) by reflexivity.
  clearbody st2. rewrite T2.
  destruct (String.eqb_spec (activeTab st) "console") as [Ha | Ha].
  - destruct (renderConsoleLogs_frame st2) as (s & [R | R] & Hc & Hn & _ & Hw);
      rewrite R; cbn [uncaught].
    + rewrite Hc, Hn, Hw, E2, N2, F2, storeWrites_app. cbn.
      split; [apply pushLog_lastN|]. split; [reflexivity|]. split; [reflexivity|].
      intros C. contradiction.
    + cbn. rewrite Hc, Hn, E2, N2, storeWrites_app, Hw, F2, storeWrites_app. cbn.
      rewrite app_nil_r.
      split; [apply pushLog_lastN|]. split; [reflexivity|]. split; [reflexivity|].
      intros C. contradiction.
  - cbn [uncaught]. rewrite E2, N2, F2, storeWrites_app, E2. cbn.
    split; [apply pushLog_lastN|]. auto.
Qed.

(** [relay_log_entry] on the relay of ["hi"] from the window "Asteroids". *)
Lemma relay_log_entry_witness :
  consoleLogs (onMessage 7 (AgentScript.logMessage "info" "hi" "Asteroids") (idleState [] ∅))
  = [logEntry 7 (JStr "info") (JStr "[Asteroids] hi")].
Proof.
  pose proof (proj1 (relay_log_entry 7 (AgentScript.logMessage "info" "hi" "Asteroids")
                       (JStr "info") "hi" "Asteroids" (idleState [] ∅)
                       eq_refl eq_refl eq_refl eq_refl)) as H.
  cbv zeta in H. rewrite H. vm_compute. reflexivity.
Defined.

Lemma existsb_filter_false {A} (P Q : A -> bool) (l : list A) :
  existsb P l = false -> existsb P (List.filter Q l) = false.
Proof.
  induction l as [|x l IH]; intros H; [reflexivity|].
  simpl in *. apply orb_false_elim in H. destruct H as [Hx Hl].
  destruct (Q x); simpl; rewrite ?Hx; apply IH, Hl.
Qed.

Lemma existsb_lastN_false {A} (P : A -> bool) (n : nat) (l : list A) :
  existsb P l = false -> existsb P (lastN n l) = false.
Proof.
  intros H. unfold lastN.
  rewrite <- (firstn_skipn (length l - n) l) in H.
  rewrite existsb_app in H. apply orb_false_elim in H. apply H.
Qed.

Lemma entryThrows_nullish (x : JsValue) : nullish x = true -> entryThrows x = true.
Proof. destruct x; try discriminate; reflexivity. Qed.

Lemma existsb_entryThrows_nullish (l : list JsValue) :
  existsb nullish l = true -> existsb entryThrows l = true.
Proof.
  induction l as [|x l IH]; [discriminate|]. simpl. intros H.
  apply orb_true_iff in H. apply orb_true_iff. destruct H as [H | H].
  - left. apply entryThrows_nullish, H.
  - right. apply IH, H.
Qed.

Lemma existsb_nullish_entryThrows (l : list JsValue) :
  existsb entryThrows l = false -> existsb nullish l = false.
Proof.
  intros H. destruct (existsb nullish l) eqn:E; [|reflexivity].
  apply existsb_entryThrows_nullish in E. congruence.
Qed.

Lemma lastN_suffix {A} (n : nat) (l : list A) : isSuffix (lastN n l) l.
Proof.
  exists (firstn (length l - n) l). unfold lastN. symmetry. apply firstn_skipn.
Qed.

(** X4.  When every buffered entry can be painted (none is [null] or
    [undefined], and none has a level, a time or a message whose conversion
    throws), the list is repainted with at most 120 entries, which are the
    end of the buffer, or with a filter set the end of the entries of that
    level; painting changes nothing else. *)
Theorem render_shows_recent (st : State) :
  existsb entryThrows (consoleLogs st) = false ->
  exists shown,
    renderConsoleLogs st = Normal (emit (Render shown) st) /\
    (length shown <= 120)%nat /\
    (consoleFilter st = EmptyString -> isSuffix shown (consoleLogs st)) /\
    (consoleFilter st <> EmptyString ->
       Forall (fun e => entryLevel e = JStr (consoleFilter st)) shown /\
       isSuffix shown
         (List.filter (fun e => strictEqStr (entryLevel e) (consoleFilter st))
            (consoleLogs st))).
Proof.
  intros Hok. unfold renderConsoleLogs.
  rewrite (existsb_nullish_entryThrows _ Hok).
  pose proof (lastN_suffix (A := JsValue) 120) as Hsuf.
  destruct (String.eqb_spec (consoleFilter st) EmptyString) as [Hf | Hf].
  - rewrite (existsb_lastN_false _ 120 _ Hok). eexists. split; [reflexivity|].
    split; [rewrite lastN_length; lia|]. split; [intros _; apply Hsuf|].
    intros C. contradiction.
  - rewrite (existsb_lastN_false _ 120 _ (existsb_filter_false _ _ _ Hok)).
    eexists. split; [reflexivity|].
    split; [rewrite lastN_length; lia|]. split; [intros C; contradiction|].
    intros _. split; [|apply Hsuf].
    apply Forall_forall. intros e He. apply list_elem_of_In in He.
    destruct (Hsuf (List.filter
                (fun l => strictEqStr (default JUndefined (Get l "lvl")) (consoleFilter st))
                (consoleLogs st))) as (front & Hfront).
    assert (Hin : In e (List.filter
                (fun l => strictEqStr (default JUndefined (Get l "lvl")) (consoleFilter st))
                (consoleLogs st))).
    { rewrite Hfront. apply in_or_app. right. exact He. }
    apply filter_In in Hin. destruct Hin as [_ Hin].
    apply strictEqStr_true in Hin. exact Hin.
Qed.

(** [render_shows_recent] on a buffer of 130 entries, unfiltered. *)
Lemma render_shows_recent_witness :
  exists shown,
    renderConsoleLogs (idleState (repeat (logEntry 0 (JStr "log") (JStr "x")) 130) ∅)
      = Normal (emit (Render shown)
                  (idleState (repeat (logEntry 0 (JStr "log") (JStr "x")) 130) ∅)) /\
    (length shown <= 120)%nat.
Proof.
  destruct (render_shows_recent
              (idleState (repeat (logEntry 0 (JStr "log") (JStr "x")) 130) ∅))
    as (shown & E & L & _).
  - vm_compute. reflexivity.
  - exists shown. split; [exact E | exact L].
Defined.

(** X5.  Painting fails exactly when the filter callback, run over the
    whole buffer while a filter is set, meets a [null] or [undefined]
    entry, or when one of the entries to show (the last 120 of the
    selected ones) cannot be painted.  In the first case the list is left
    as it was; in the second it has been emptied before the failure and
    stays empty.  The buffer and the registry are never changed. *)
Theorem render_fails_on_unpaintable_entry (st : State) :
  let selected :=
    if String.eqb (consoleFilter st) EmptyString then consoleLogs st
    else List.filter (fun e => strictEqStr (entryLevel e) (consoleFilter st))
           (consoleLogs st) in
  let inFilter :=
    negb (String.eqb (consoleFilter st) EmptyString) && existsb nullish (consoleLogs st) in
  ((exists st', renderConsoleLogs st = Throw st') <->
   inFilter || existsb entryThrows (lastN 120 selected) = true) /\
  (forall st', renderConsoleLogs st = Throw st' ->
     (if inFilter then st' = st else st' = emit (Render []) st) /\
     consoleLogs st' = consoleLogs st /\ notesStore st' = notesStore st).
Proof.
  cbv zeta. unfold renderConsoleLogs, entryLevel.
  destruct (String.eqb (consoleFilter st) EmptyString); cbn [negb andb orb].
  - destruct (existsb entryThrows (lastN 120 (consoleLogs st))); split.
    + split; [reflexivity | eauto].
    + intros st' H. inversion H. repeat split.
    + split; [intros [st' H]; discriminate H | discriminate].
    + intros st' H. discriminate H.
  - destruct (existsb nullish (consoleLogs st)); cbn [orb].
    + split; [split; [reflexivity | eauto]|].
      intros st' H. inversion H. repeat split.
    + destruct (existsb entryThrows (lastN 120 _)); split.
      * split; [reflexivity | eauto].
      * intros st' H. inversion H. repeat split.
      * split; [intros [st' H]; discriminate H | discriminate].
      * intros st' H. discriminate H.
Qed.

(** [render_fails_on_unpaintable_entry] on a buffer whose last entry is
    [null]: the list is emptied and nothing is shown. *)
Lemma render_fails_on_unpaintable_entry_witness :
  let st := idleState [logEntry 1 (JStr "log") (JStr "a"); JNull] ∅ in
  renderConsoleLogs st = Throw (emit (Render []) st).
Proof.
  cbv zeta.
  set (st := idleState [logEntry 1 (JStr "log") (JStr "a"); JNull] ∅).
  destruct (proj2 (proj1 (render_fails_on_unpaintable_entry st)) eq_refl) as [st' H].
  rewrite H. f_equal.
  exact (proj1 (proj2 (render_fails_on_unpaintable_entry st) st' H)).
Defined.

(* ===================================================================== *)
(** ** Further properties: escaping, clearing, import and export *)
(* ===================================================================== *)

Lemma replaceAllChar_app (c : ascii) (r a b : string) :
  replaceAllChar c r (a +:+ b) = replaceAllChar c r a +:+ replaceAllChar c r b.
Proof.
  induction a as [|x a IH]; [reflexivity|].
  rewrite sapp_cons. simpl. destruct (Ascii.eqb x c); rewrite IH.
  - rewrite sapp_assoc. reflexivity.
  - rewrite sapp_cons. reflexivity.
Qed.

Lemma escHtml_cons (c : ascii) (s : string) :
  escHtml (JStr (String c s)) = escHtmlChar c +:+ escHtml (JStr s).
Proof.
  unfold escHtml, escHtmlChar. cbn [ToString].
  change (String c s) with (String c EmptyString +:+ s).
  rewrite !replaceAllChar_app.
  f_equal.
  destruct c as [[] [] [] [] [] [] [] []]; vm_compute; reflexivity.
Qed.

Lemma allChars_app (p : ascii -> bool) (a b : string) :
  allChars p (a +:+ b) = allChars p a && allChars p b.
Proof.
  induction a as [|x a IH]; [reflexivity|].
  rewrite sapp_cons. simpl. rewrite IH. destruct (p x); reflexivity.
Qed.

(** X6.  [escHtml] rewrites its text character by character: ampersand,
    angle brackets and the double quote become their entities and every
    other character stays; so the result holds no angle bracket and no
    double quote, and a text without the four characters is unchanged. *)
Theorem escHtml_neutralises_markup (s : string) :
  escHtml (JStr s) =
    String.concat EmptyString (List.map escHtmlChar (list_ascii_of_string s)) /\
  allChars (fun c => negb (Ascii.eqb c "<"%char || Ascii.eqb c ">"%char
                           || Ascii.eqb c "034"%char)) (escHtml (JStr s)) = true /\
  (allChars (fun c => negb (Ascii.eqb c "&"%char || Ascii.eqb c "<"%char
                            || Ascii.eqb c ">"%char || Ascii.eqb c "034"%char)) s = true ->
   escHtml (JStr s) = s).
Proof.
  induction s as [|c s (IH1 & IH2 & IH3)].
  - repeat split.
  - rewrite escHtml_cons. split; [|split].
    + cbn [list_ascii_of_string List.map]. rewrite concat_empty_cons, IH1. reflexivity.
    + rewrite allChars_app, IH2, andb_true_r.
      destruct c as [[] [] [] [] [] [] [] []]; vm_compute; reflexivity.
    + intros H. simpl in H. apply andb_prop in H. destruct H as [Hc Hs].
      rewrite (IH3 Hs). revert Hc. clear.
      destruct c as [[] [] [] [] [] [] [] []]; vm_compute; intros H;
        reflexivity || discriminate H.
Qed.

(** [escHtml_neutralises_markup] on a plain message. *)
Lemma escHtml_neutralises_markup_witness : escHtml (JStr "score: 12") = "score: 12".
Proof.
  apply (proj2 (proj2 (escHtml_neutralises_markup "score: 12"))).
  vm_compute. reflexivity.
Defined.

Lemma onClearAll_state (st : State) :
  consoleLogs (onClearAll true st) = [] /\
  notesStore (onClearAll true st) = ∅ /\
  noteSaveTimer (onClearAll true st) = noteSaveTimer st.
Proof.
  unfold onClearAll. cbn [negb]. set (st2 := saveNotes _).
  destruct (renderConsoleLogs_effects st2) as (painted & [R | [R | R]]); rewrite R;
    subst st2; cbn; auto.
Qed.

(** X7.  "Clear ALL saved data": when the prompt is declined nothing
    changes; when it is accepted the buffer and the registry are emptied,
    both are written to storage as empty, the list is repainted empty and
    one notice is shown.  A pending note timer is left pending. *)
Theorem clear_all_empties_both (st : State) :
  onClearAll false st = st /\
  consoleLogs (onClearAll true st) = [] /\
  notesStore (onClearAll true st) = ∅ /\
  effects (onClearAll true st) =
    effects st ++ [SetItem KEY_CONSOLE (JArray []); SetItem KEY_NOTES (JObj ∅);
                   Render []; Alert "Cleared."] /\
  noteSaveTimer (onClearAll true st) = noteSaveTimer st.
Proof.
  split; [reflexivity|].
  unfold onClearAll. cbn [negb].
  set (st2 := saveNotes _).
  assert (R : renderConsoleLogs st2 = Normal (emit (Render []) st2)).
  { unfold renderConsoleLogs. subst st2. cbn [consoleLogs saveNotes saveJSON emit setNotes setLogs consoleFilter].
    destruct (String.eqb (consoleFilter st) EmptyString); reflexivity. }
  rewrite R. subst st2. cbn. rewrite <- !app_assoc. repeat split.
Qed.

(** X8.  A note timer pending when all data is cleared still fires, and
    what it writes is the emptied registry: the cleared notes do not come
    back through the delayed save. *)
Theorem clear_all_beats_pending_save (now : Z) (x k : string) (st : State) :
  currentNoteKey st = Some k ->
  recordsOnly (notesStore st) ->
  let st' := noteTimerFire (onClearAll true (onNotesInput now x st)) in
  noteSaveTimer (onClearAll true (onNotesInput now x st)) = Some (now + NOTE_SAVE_DELAY) /\
  notesStore st' = ∅ /\
  last (effects st') = Some (SetItem KEY_NOTES (JObj ∅)).
Proof.
  intros Hk Hr.
  destruct (onNotesInput_spec now x k st Hk Hr) as (It & _).
  destruct (onClearAll_state (onNotesInput now x st)) as (_ & Cn & Ct).
  cbv zeta in *.
  destruct (noteTimerFire_spec (onClearAll true (onNotesInput now x st)))
    as (Fe & _ & Fn & _).
  cbv zeta in *. rewrite Ct, It, Fn, Cn, Fe, Cn.
  split; [reflexivity|]. split; [reflexivity|]. apply last_snoc.
Qed.

(** [clear_all_beats_pending_save] on an edit of the note "pong". *)
Lemma clear_all_beats_pending_save_witness :
  let st := loadNoteForKey "pong" (idleState [] ∅) in
  notesStore (noteTimerFire (onClearAll true (onNotesInput 5 "lvl 2" st))) = ∅.
Proof.
  cbv zeta.
  apply (clear_all_beats_pending_save 5 "lvl 2" "pong"
           (loadNoteForKey "pong" (idleState [] ∅))).
  - reflexivity.
  - apply map_Forall_empty.
Defined.

Lemma import_object_file (data : JsValue) (ns ex : gmap string JsValue)
    (es : list JsValue) (st : State) :
  Get data "notes" = Some (JObj ns) ->
  Get data "consoleLogs" = Some (JArr es ex) ->
  exists st2,
    consoleLogs st2 = es /\ notesStore st2 = ns ∪ notesStore st /\
    effects st2 = effects st ++ [SetItem KEY_NOTES (JObj (ns ∪ notesStore st));
                                 SetItem KEY_CONSOLE (JArray es)] /\
    consoleFilter st2 = consoleFilter st /\
    onImportLoad (Parsed data) st =
      match renderConsoleLogs st2 with
      | Normal st4 => emit (Alert IMPORT_OK) st4
      | Throw st4 => emit (Alert IMPORT_FAILED) st4
      end.
Proof.
  intros Hn Hl. unfold onImportLoad, importBody. rewrite Hn, Hl.
  cbn [truthy iterate andThen].
  set (st3 := saveJSON _ _ _). exists st3.
  split; [reflexivity|]. split; [reflexivity|].
  split; [subst st3; cbn; rewrite <- app_assoc; reflexivity|].
  split; [reflexivity|].
  destruct (renderConsoleLogs st3); reflexivity.
Qed.

Lemma import_object_state (data : JsValue) (ns ex : gmap string JsValue)
    (es : list JsValue) (st : State) :
  Get data "notes" = Some (JObj ns) ->
  Get data "consoleLogs" = Some (JArr es ex) ->
  consoleLogs (onImportLoad (Parsed data) st) = es /\
  notesStore (onImportLoad (Parsed data) st) = ns ∪ notesStore st.
Proof.
  intros Hn Hl.
  destruct (import_object_file data ns ex es st Hn Hl) as (st2 & Hc & Hs & _ & _ & Hi).
  rewrite Hi.
  destruct (renderConsoleLogs_effects st2) as (painted & [R | [R | R]]); rewrite R;
    cbn; auto.
Qed.

(** X9.  Importing a file with a [notes] object that has no [__proto__] key
    and a [consoleLogs] array: every key of the file takes the file's value
    and every other key keeps its own; the buffer becomes the file's array,
    whatever it held; the registry and then the buffer are written to
    storage. *)
Theorem import_merges_notes_replaces_logs (data : JsValue)
    (ns ex : gmap string JsValue) (es : list JsValue) (st : State) :
  Get data "notes" = Some (JObj ns) ->
  Get data "consoleLogs" = Some (JArr es ex) ->
  ns !! "__proto__" = None ->
  let st' := onImportLoad (Parsed data) st in
  (forall k v, ns !! k = Some v -> notesStore st' !! k = Some v) /\
  (forall k, ns !! k = None -> notesStore st' !! k = notesStore st !! k) /\
  consoleLogs st' = es /\
  storeWrites (effects st') = storeWrites (effects st) ++ [KEY_NOTES; KEY_CONSOLE].
Proof.
  intros Hn Hl _ st'.
  destruct (import_object_file data ns ex es st Hn Hl) as (st2 & Hc & Hs & He & _ & Hi).
  subst st'. rewrite Hi.
  destruct (renderConsoleLogs_frame st2) as (s & [R | R] & Rc & Rn & _ & Rw);
    rewrite R; cbn [consoleLogs notesStore effects emit];
    rewrite ?storeWrites_app, Rc, Rn, Rw, Hc, Hs, He, storeWrites_app; cbn;
    rewrite ?app_nil_r;
    (split; [intros k v Hk; apply lookup_union_Some_l; exact Hk|]);
    (split; [intros k Hk; apply lookup_union_r; exact Hk|]); auto.
Qed.

(** [import_merges_notes_replaces_logs] on a file with one note, imported
    over a registry that holds another. *)
Lemma import_merges_notes_replaces_logs_witness :
  let file := JObj (<["notes" := JObj (<["pong" := noteRecord (JStr "Pong") (JStr "new") 9]> ∅)]>
                    (<["consoleLogs" := JArray []]> ∅)) in
  let st := idleState [logEntry 1 (JStr "log") (JStr "old")]
              (<["tetris" := noteRecord (JStr "Tetris") (JStr "kept") 3]> ∅) in
  notesStore (onImportLoad (Parsed file) st) !! "pong"
    = Some (noteRecord (JStr "Pong") (JStr "new") 9) /\
  notesStore (onImportLoad (Parsed file) st) !! "tetris"
    = Some (noteRecord (JStr "Tetris") (JStr "kept") 3) /\
  consoleLogs (onImportLoad (Parsed file) st) = [].
Proof.
  cbv zeta.
  set (file := JObj _). set (st := idleState _ _).
  destruct (import_merges_notes_replaces_logs file
              (<["pong" := noteRecord (JStr "Pong") (JStr "new") 9]> ∅) ∅ [] st)
    as (Hin & Hout & Hlogs & _).
  - vm_compute. reflexivity.
  - vm_compute. reflexivity.
  - vm_compute. reflexivity.
  - split; [apply Hin; vm_compute; reflexivity|].
    split; [rewrite Hout; vm_compute; reflexivity | exact Hlogs].
Defined.

(** X10.  A full save taken in some state, imported after all data was
    cleared, brings back the buffer and the registry of that state. *)
Theorem export_clear_import_restores (iso : string) (st : State) :
  let st' := onImportLoad (Parsed (fullSave iso st)) (onClearAll true st) in
  consoleLogs st' = consoleLogs st /\ notesStore st' = notesStore st.
Proof.
  destruct (onClearAll_state st) as (_ & Cn & _).
  destruct (import_object_state (fullSave iso st) (notesStore st) ∅
              (consoleLogs st) (onClearAll true st)) as (Hlogs & Hnotes).
  { unfold fullSave. cbn [Get]. map_lookup. reflexivity. }
  { unfold fullSave. cbn [Get]. map_lookup. reflexivity. }
  cbv zeta. split; [exact Hlogs|].
  rewrite Hnotes, Cn. apply map_eq. intros k.
  rewrite lookup_union, lookup_empty. destruct (notesStore st !! k); reflexivity.
Qed.

(** X11.  A file whose [notes] object has no [__proto__] key and whose log
    array has a [null] among its last 120 entries, imported while no filter
    is set: the buffer is replaced, registry and buffer are written to
    storage, the list is emptied, and yet the alert shown is the failure
    one, because repainting the list throws. *)
Theorem import_null_entry_reported_late (data : JsValue)
    (ns ex : gmap string JsValue) (es : list JsValue) (st : State) :
  Get data "notes" = Some (JObj ns) ->
  Get data "consoleLogs" = Some (JArr es ex) ->
  ns !! "__proto__" = None ->
  consoleFilter st = EmptyString ->
  existsb nullish (lastN 120 es) = true ->
  let st' := onImportLoad (Parsed data) st in
  consoleLogs st' = es /\
  effects st' = effects st ++ [SetItem KEY_NOTES (JObj (ns ∪ notesStore st));
                               SetItem KEY_CONSOLE (JArray es);
                               Render [];
                               Alert IMPORT_FAILED].
Proof.
  intros Hn Hl _ Hf Hnull st'.
  destruct (import_object_file data ns ex es st Hn Hl) as (st2 & Hc & Hs & He & Hf2 & Hi).
  subst st'. rewrite Hi.
  assert (R : renderConsoleLogs st2 = Throw (emit (Render []) st2)).
  { unfold renderConsoleLogs. rewrite Hf2, Hf, Hc. cbn.
    rewrite (existsb_entryThrows_nullish _ Hnull). reflexivity. }
  rewrite R. cbn. rewrite Hc, He, <- !app_assoc. auto.
Qed.

(** [import_null_entry_reported_late] on a file whose only log entry is
    [null]. *)
Lemma import_null_entry_reported_late_witness :
  let file := JObj (<["notes" := JObj ∅]> (<["consoleLogs" := JArray [JNull]]> ∅)) in
  alertsOf (effects (onImportLoad (Parsed file) (idleState [] ∅))) = [IMPORT_FAILED] /\
  consoleLogs (onImportLoad (Parsed file) (idleState [] ∅)) = [JNull].
Proof.
  cbv zeta.
  destruct (import_null_entry_reported_late
              (JObj (<["notes" := JObj ∅]> (<["consoleLogs" := JArray [JNull]]> ∅)))
              ∅ ∅ [JNull] (idleState [] ∅)) as (Hc & He).
  - vm_compute. reflexivity.
  - vm_compute. reflexivity.
  - vm_compute. reflexivity.
  - reflexivity.
  - reflexivity.
  - split; [rewrite He; reflexivity | exact Hc].
Defined.

(* ===================================================================== *)
(** ** Further properties: notes *)
(* ===================================================================== *)














(* ===================================================================== *)
(** ** Further properties: what every run keeps *)
(* ===================================================================== *)

Section Invariants.
Variable JSON_stringify : JsValue -> option string.
Variable tie : bool.

Lemma onNotesInput_logs (now : Z) (x : string) (st : State) :
  consoleLogs (onNotesInput now x st) = consoleLogs st.
Proof.
  unfold onNotesInput. destruct (currentNoteKey (setArea x st)); [|reflexivity].
  destruct (writeNote _ _ _ _); reflexivity.
Qed.

Lemma loadNoteForKey_logs (key : string) (st : State) :
  consoleLogs (loadNoteForKey key st) = consoleLogs st.
Proof. unfold loadNoteForKey. destruct (String.eqb key EmptyString); reflexivity. Qed.

Lemma patchMakeBlankerHTML_logs (st : State) :
  consoleLogs (patchMakeBlankerHTML st) = consoleLogs st.
Proof.
  unfold patchMakeBlankerHTML. destruct (negb (injectEnabled st)).
  - destruct (origMakeBlankerHTML st); reflexivity.
  - destruct (origMakeBlankerHTML st) eqn:Eo, (makeBlankerHTML st) eqn:Em;
      cbn; rewrite ?Eo; reflexivity.
Qed.

Lemma uncaught_render_logs (st : State) :
  consoleLogs (uncaught (renderConsoleLogs st)) = consoleLogs st.
Proof.
  destruct (renderConsoleLogs st) as [s|s] eqn:E; cbn.
  - apply (renderConsoleLogs_logs _ s (or_introl E)).
  - apply (renderConsoleLogs_logs _ s (or_intror E)).
Qed.

Lemma relayNote_logs (now : Z) (data : JsValue) (st : State) :
  consoleLogs (uncaught (relayNote now data st)) = consoleLogs st.
Proof.
  unfold relayNote. destruct (inheritedOnly _ _); [reflexivity|].
  destruct (writeNote _ _ _ _); reflexivity.
Qed.

Lemma onMessage_logs_bounded (now : Z) (data : JsValue) (st : State) :
  (length (consoleLogs st) <= MAX_LOGS)%nat ->
  (length (consoleLogs (onMessage now data st)) <= MAX_LOGS)%nat.
Proof.
  intros H. unfold onMessage.
  destruct (negb (truthy data) || negb (typeofObject data)); [exact H|].
  set (type := default JUndefined (Get data "type")).
  destruct (strictEqStr type "sp_log").
  - destruct (relayLog now data st) as [s|s] eqn:E; cbn [andThen].
    + destruct (relayLog_bounded now data st s (or_introl E)) as (entry & _ & L).
      destruct (strictEqStr type "sp_note"); [rewrite relayNote_logs|]; exact L.
    + destruct (relayLog_bounded now data st s (or_intror E)) as (entry & _ & L).
      exact L.
  - cbn [andThen]. destruct (strictEqStr type "sp_note"); [rewrite relayNote_logs|]; exact H.
Qed.

Lemma dispatch_logs_bounded (now : Z) (e : Event) (st : State) :
  notImport e ->
  (length (consoleLogs st) <= MAX_LOGS)%nat ->
  (length (consoleLogs (dispatch JSON_stringify now e st)) <= MAX_LOGS)%nat.
Proof.
  intros Hi H. destruct e; cbn [dispatch notImport] in *; try exact H.
  - fold (dispatch JSON_stringify now (EvConsole m args) st).
    rewrite dispatch_console_logs. apply pushLog_length.
  - rewrite onConsoleClear_logs. cbn. lia.
  - unfold onFilter. rewrite uncaught_render_logs. exact H.
  - unfold onTab, populateGameSelect.
    destruct (String.eqb tab "notes"); [|exact H].
    destruct (existsb _ _); [exact H|]. rewrite loadNoteForKey_logs. exact H.
  - rewrite loadNoteForKey_logs. exact H.
  - rewrite onNotesInput_logs. exact H.
  - unfold onInjectToggle. rewrite patchMakeBlankerHTML_logs. exact H.
  - rewrite patchMakeBlankerHTML_logs. exact H.
  - apply onMessage_logs_bounded, H.
  - contradiction.
  - destruct confirmed; [|exact H].
    rewrite (proj1 (onClearAll_state st)). cbn. lia.
Qed.

Lemma notImport_spec (e : Event) : notImport e -> forall r, e <> EvImport r.
Proof. intros H r ->. exact H. Qed.

(** A property kept by the timer's flush and by every event that is not an
    import is kept by every run without imports. *)
Lemma run_invariant (P : State -> Prop) :
  (forall st, P st -> P (noteTimerFire st)) ->
  (forall now e st, notImport e -> P st -> P (dispatch JSON_stringify now e st)) ->
  forall sched st,
    Forall (fun te => notImport (snd te)) sched -> P st ->
    P (run JSON_stringify tie sched st).
Proof.
  intros Hfire Hstep sched. induction sched as [|[t e] sched IH]; intros st Hs Hp.
  - exact Hp.
  - apply Forall_cons in Hs. destruct Hs as [He Hs]. cbn [snd] in He.
    cbn [run]. apply IH; [exact Hs|]. apply Hstep; [exact He|].
    unfold fireDue. destruct (noteSaveTimer st) as [d|]; [|exact Hp].
    destruct ((d <? t) || (tie && (d =? t))); [apply Hfire|]; exact Hp.
Qed.

End Invariants.

(** X16.  Whatever is logged, relayed, edited, selected, toggled, cleared or
    exported, and whenever the note timer fires: a buffer within [MAX_LOGS]
    stays within [MAX_LOGS].  Only an import can exceed the bound. *)
Theorem run_keeps_buffer_bounded (JSON_stringify : JsValue -> option string)
    (tie : bool) (sched : list (Z * Event)) (st : State) :
  Forall (fun te => notImport (snd te)) sched ->
  (length (consoleLogs st) <= MAX_LOGS)%nat ->
  (length (consoleLogs (run JSON_stringify tie sched st)) <= MAX_LOGS)%nat.
Proof.
  apply (run_invariant JSON_stringify tie
           (fun s => (length (consoleLogs s) <= MAX_LOGS)%nat)).
  - intros s H. exact H.
  - intros now e s. apply dispatch_logs_bounded.
Qed.

(** [run_keeps_buffer_bounded] on a console call, a relay and a clear. *)
Lemma run_keeps_buffer_bounded_witness :
  let st' := run (fun _ => None) true
               [(1, EvConsole Mlog [JStr "a"]);
                (2, EvMessage (AgentScript.logMessage "warn" "b" "Pong"));
                (3, EvTab "notes")]
               (idleState [] ∅) in
  (length (consoleLogs st') <= MAX_LOGS)%nat.
Proof.
  cbv zeta. apply run_keeps_buffer_bounded.
  - repeat constructor.
  - unfold MAX_LOGS. simpl. lia.
Defined.

(** X17.  A registry whose values are all record objects keeps that shape
    through every event but an import, and through the timer's flush. *)
Theorem run_keeps_records (JSON_stringify : JsValue -> option string)
    (tie : bool) (sched : list (Z * Event)) (st : State) :
  Forall (fun te => notImport (snd te)) sched ->
  recordsOnly (notesStore st) ->
  recordsOnly (notesStore (run JSON_stringify tie sched st)).
Proof.
  apply (run_invariant JSON_stringify tie (fun s => recordsOnly (notesStore s))).
  - intros s H. exact H.
  - intros now e s He. apply dispatch_recordsOnly. apply notImport_spec, He.
Qed.

(** [run_keeps_records] on an edit, a note relay and a clearing. *)
Lemma run_keeps_records_witness :
  recordsOnly (notesStore
     (run (fun _ => None) true
        [(1, EvSelect "pong"); (2, EvInput "lvl 1");
         (3, EvMessage (AgentScript.noteMessage "sp_blanker_Pong" "x" "Pong"));
         (4, EvClearAll true)]
        (idleState [] ∅))).
Proof.
  apply run_keeps_records.
  - repeat constructor.
  - apply map_Forall_empty.
Defined.

(* ===================================================================== *)
(** ** Further properties: the notes tab and the patcher *)
(* ===================================================================== *)



(** X19.  Enabling the injection before the launcher has defined its factory
    captures and replaces nothing, however often it is retried; once the
    factory is there, the next retry captures it and installs the wrapper.
    A retry repeated right away changes nothing more. *)
Theorem patch_waits_for_factory (f : Factory) (st : State)
    (title src : string) (autoFS : bool) :
  injectEnabled st = false ->
  makeBlankerHTML st = None ->
  origMakeBlankerHTML st = None ->
  let on := onInjectToggle st in
  injectEnabled on = true /\
  makeBlankerHTML on = None /\ origMakeBlankerHTML on = None /\
  patchMakeBlankerHTML on = on /\
  let loaded := patchMakeBlankerHTML (setFactory (Some (External f)) on) in
  origMakeBlankerHTML loaded = Some (External f) /\
  callMakeBlankerHTML loaded title src autoFS = Some (wrappedFactory f title src autoFS) /\
  patchMakeBlankerHTML loaded = loaded.
Proof.
  intros He Hm Ho. destruct st. cbn in He, Hm, Ho. subst.
  repeat split.
Qed.

(** [patch_waits_for_factory] on a launcher that loads after the toggle. *)
Lemma patch_waits_for_factory_witness :
  let on := onInjectToggle (idleState [] ∅) in
  makeBlankerHTML on = None /\
  callMakeBlankerHTML (patchMakeBlankerHTML (setFactory (Some (External plainFactory)) on))
    "Pong" "pong.html" false
  = Some (wrappedFactory plainFactory "Pong" "pong.html" false).
Proof.
  cbv zeta.
  destruct (patch_waits_for_factory plainFactory (idleState [] ∅) "Pong" "pong.html" false
              eq_refl eq_refl eq_refl) as (_ & Hm & _ & _ & _ & Hc & _).
  split; [exact Hm | exact Hc].
Defined.

(** X20.  Patching twice in a row is the same as patching once, in every
    state; and each click on the toggle flips the flag, writes the new flag
    to storage and touches neither the buffer nor the registry. *)
Theorem patch_idempotent_toggle_persists (st : State) :
  patchMakeBlankerHTML (patchMakeBlankerHTML st) = patchMakeBlankerHTML st /\
  injectEnabled (onInjectToggle st) = negb (injectEnabled st) /\
  effects (onInjectToggle st) =
    effects st ++ [SetItem KEY_INJECT (JBool (negb (injectEnabled st)))] /\
  consoleLogs (onInjectToggle st) = consoleLogs st /\
  notesStore (onInjectToggle st) = notesStore st.
Proof.
  destruct st as [logs notes timer key area tab filter enabled factory orig cat eff].
  unfold onInjectToggle, patchMakeBlankerHTML, syncInjectUI, saveJSON.
  destruct enabled, orig as [o|], factory as [m|]; cbn; repeat split.
Qed.

(* ===================================================================== *)
(** ** Further properties: the agent script and its messages *)
(* ===================================================================== *)

Lemma percentDecode_encodeURIChar (c : ascii) (r : string) :
  percentDecode (encodeURIChar c +:+ r) = String c (percentDecode r).
Proof.
  destruct c as [[] [] [] [] [] [] [] []]; reflexivity.
Qed.

Lemma percentDecode_encodeURIComponent (s : string) :
  percentDecode (encodeURIComponent s) = s.
Proof.
  unfold encodeURIComponent. induction s as [|c s IH]; [reflexivity|].
  cbn [list_ascii_of_string List.map]. rewrite concat_empty_cons.
  rewrite percentDecode_encodeURIChar, IH. reflexivity.
Qed.

Lemma allChars_encodeURIChar (c : ascii) :
  allChars (fun x => uriUnreserved x || Ascii.eqb x "%"%char) (encodeURIChar c) = true.
Proof.
  destruct c as [[] [] [] [] [] [] [] []]; vm_compute; reflexivity.
Qed.

(** X21.  The note key an agent derives from its window title starts with
    ["sp_blanker_"] and goes on with unreserved characters and percent
    signs only; and two windows with different titles never share a key. *)
Theorem agent_keys_distinct (a b : AgentScript.AgentState) :
  (exists rest,
     AgentScript.gameKey a = "sp_blanker_" +:+ rest /\
     allChars (fun x => uriUnreserved x || Ascii.eqb x "%"%char) rest = true) /\
  (AgentScript.gameKey a = AgentScript.gameKey b ->
   AgentScript.gameTitle a = AgentScript.gameTitle b).
Proof.
  split.
  - exists (encodeURIComponent (AgentScript.gameTitle a)). split; [reflexivity|].
    unfold encodeURIComponent.
    induction (list_ascii_of_string (AgentScript.gameTitle a)) as [|c l IH]; [reflexivity|].
    cbn [List.map]. rewrite concat_empty_cons, allChars_app, allChars_encodeURIChar.
    exact IH.
  - unfold AgentScript.gameKey. intros H.
    apply sapp_inv in H; [|reflexivity]. destruct H as [_ H].
    apply (f_equal percentDecode) in H.
    rewrite !percentDecode_encodeURIComponent in H. exact H.
Qed.

(** [agent_keys_distinct] on two windows with the same title. *)
Lemma agent_keys_distinct_witness :
  AgentScript.gameTitle (AgentScript.start "Space Race" true None)
  = AgentScript.gameTitle (AgentScript.start "Space Race" false (Some "x")).
Proof.
  apply (agent_keys_distinct (AgentScript.start "Space Race" true None)
           (AgentScript.start "Space Race" false (Some "x"))).
  reflexivity.
Defined.

Lemma substring_length (n m : nat) (s : string) :
  (String.length (String.substring n m s) <= m)%nat.
Proof.
  revert n m. induction s as [|c s IH]; intros n m.
  - destruct n, m; simpl; lia.
  - destruct n, m; simpl; try lia.
    + specialize (IH 0%nat m). lia.
    + apply IH.
    + apply IH.
Qed.

(** X22.  For a message of ASCII text: the agent's own list never grows
    beyond 80 lines once it is within 80: each new line goes to the end and
    the oldest line goes when the list would hold 81; a line shows at most
    the first 200 characters of the message, while the message posted to
    the opener is whole. *)
Theorem agent_display_bounded (stamp lvl msg : string) (a : AgentScript.AgentState) :
  isAscii msg = true ->
  (length (AgentScript.lines a) <= AgentScript.DISPLAY_MAX)%nat ->
  let a' := AgentScript.addLog stamp lvl msg a in
  (length (AgentScript.lines a') <= AgentScript.DISPLAY_MAX)%nat /\
  AgentScript.lines a' =
    lastN AgentScript.DISPLAY_MAX
      (AgentScript.lines a ++ [stamp +:+ " " +:+ String.substring 0 200 msg]) /\
  (String.length (String.substring 0 200 msg) <= 200)%nat /\
  AgentScript.posted a' =
    AgentScript.posted a ++
    (if AgentScript.hasOpener a
     then [AgentScript.logMessage lvl msg (AgentScript.gameTitle a)] else []).
Proof.
  intros _ H a'.
  assert (L : AgentScript.lines a' =
              if (AgentScript.DISPLAY_MAX <?
                    length (AgentScript.lines a ++ [stamp +:+ " " +:+ String.substring 0 200 msg]))%nat
              then tl (AgentScript.lines a ++ [stamp +:+ " " +:+ String.substring 0 200 msg])
              else AgentScript.lines a ++ [stamp +:+ " " +:+ String.substring 0 200 msg]).
  { subst a'. unfold AgentScript.addLog, AgentScript.post. cbn.
    destruct (AgentScript.hasOpener a); reflexivity. }
  assert (P : AgentScript.posted a' =
    AgentScript.posted a ++
    (if AgentScript.hasOpener a
     then [AgentScript.logMessage lvl msg (AgentScript.gameTitle a)] else [])).
  { subst a'. unfold AgentScript.addLog, AgentScript.post. cbn.
    destruct (AgentScript.hasOpener a); cbn; rewrite ?app_nil_r; reflexivity. }
  clearbody a'. rewrite L, P. clear L P.
  set (shown := AgentScript.lines a ++ _).
  assert (Hlen : length shown = S (length (AgentScript.lines a))).
  { subst shown. rewrite length_app. simpl. lia. }
  pose proof (substring_length 0 200 msg) as Hsub.
  unfold lastN.
  destruct (Nat.ltb_spec AgentScript.DISPLAY_MAX (length shown)) as [Hgt | Hle].
  - replace (length shown - AgentScript.DISPLAY_MAX)%nat with 1%nat by lia.
    destruct shown as [|x shown]; [simpl in Hlen; lia|].
    simpl in Hlen. cbn [tl skipn].
    split; [lia|]. split; [reflexivity|]. split; [exact Hsub | reflexivity].
  - replace (length shown - AgentScript.DISPLAY_MAX)%nat with 0%nat by lia.
    cbn [skipn].
    split; [lia|]. split; [reflexivity|]. split; [exact Hsub | reflexivity].
Qed.

(** [agent_display_bounded] on a fresh agent. *)
Lemma agent_display_bounded_witness :
  AgentScript.lines (AgentScript.addLog "10:00:00" "log" "hello"
                       (AgentScript.start "Pong" true None))
  = ["10:00:00 hello"].
Proof.
  destruct (agent_display_bounded "10:00:00" "log" "hello"
              (AgentScript.start "Pong" true None)) as (_ & H & _).
  - reflexivity.
  - unfold AgentScript.DISPLAY_MAX. simpl. lia.
  - cbv zeta in H. rewrite H. reflexivity.
Defined.

Lemma onMessage_logMessage (now : Z) (lvl msg title : string) (st : State) :
  consoleLogs (onMessage now (AgentScript.logMessage lvl msg title) st) =
  pushLog (logEntry now (JStr lvl) (JStr ("[" +:+ title +:+ "] " +:+ msg))) (consoleLogs st).
Proof.
  unfold onMessage, AgentScript.logMessage. cbn [truthy typeofObject negb orb Get].
  map_lookup. cbn [strictEqStr]. rewrite String.eqb_refl.
  replace (String.eqb "sp_log" "sp_note") with false by reflexivity.
  unfold relayLog. cbn [Get]. map_lookup. cbn [ToString].
  set (st2 := saveJSON _ _ _).
  assert (E2 : consoleLogs st2 =
               pushLog (logEntry now (JStr lvl) (JStr ("[" +:+ title +:+ "] " +:+ msg)))
                 (consoleLogs st)) by reflexivity.
  clearbody st2.
  destruct (String.eqb (activeTab st2) "console").
  - destruct (renderConsoleLogs_effects st2) as (painted & [R | [R | R]]); rewrite R; cbn;
      exact E2.
  - cbn. exact E2.
Qed.

(** X23.  End to end: a console call with printable arguments (numbers are
    safe integers, and no object or array met by the conversion to text has
    a [toString] or [join] property of its own) in a child window that has
    an opener posts one message, and the hub that receives it appends an
    entry with the method's name as level and, as message, the window title
    in brackets followed by the flattened arguments.  Without an opener
    nothing is posted. *)
Theorem agent_log_reaches_hub (JSON_stringify : JsValue -> option string)
    (stamp : string) (m : Method) (args : list JsValue)
    (a : AgentScript.AgentState) (now : Z) (st : State) :
  forallb printable args = true ->
  let a' := AgentScript.agentConsole JSON_stringify stamp m args a in
  (AgentScript.hasOpener a = false -> AgentScript.posted a' = AgentScript.posted a) /\
  (AgentScript.hasOpener a = true ->
   exists data,
     AgentScript.posted a' = AgentScript.posted a ++ [data] /\
     consoleLogs (onMessage now data st) =
       lastN MAX_LOGS (consoleLogs st ++
         [logEntry now (JStr (methodName m))
            (JStr ("[" +:+ AgentScript.gameTitle a +:+ "] "
                   +:+ flattenArgs JSON_stringify args))])).
Proof.
  intros _ a'.
  assert (P : AgentScript.posted a' =
    AgentScript.posted a ++
    (if AgentScript.hasOpener a
     then [AgentScript.logMessage (methodName m) (flattenArgs JSON_stringify args)
             (AgentScript.gameTitle a)] else [])).
  { subst a'. unfold AgentScript.agentConsole, AgentScript.addLog, AgentScript.post. cbn.
    destruct (AgentScript.hasOpener a); cbn; rewrite ?app_nil_r; reflexivity. }
  split; intros Ho; rewrite Ho in P.
  - rewrite P. apply app_nil_r.
  - eexists. split; [exact P|].
    rewrite onMessage_logMessage. apply pushLog_lastN.
Qed.

(** [agent_log_reaches_hub] on a warning logged in the window "Asteroids". *)
Lemma agent_log_reaches_hub_witness :
  exists data,
    AgentScript.posted
      (AgentScript.agentConsole (fun _ => None) "10:00:00" Mwarn [JStr "low"; JStr "fuel"]
         (AgentScript.start "Asteroids" true None)) = [data] /\
    consoleLogs (onMessage 9 data (idleState [] ∅))
      = [logEntry 9 (JStr "warn") (JStr "[Asteroids] low fuel")].
Proof.
  destruct (proj2 (agent_log_reaches_hub (fun _ => None) "10:00:00" Mwarn
                     [JStr "low"; JStr "fuel"] (AgentScript.start "Asteroids" true None)
                     9 (idleState [] ∅) eq_refl) eq_refl) as (data & P & H).
  exists data. split; [exact P|]. rewrite H. vm_compute. reflexivity.
Defined.



(* ===================================================================== *)
(** ** Further properties: the console toolbar and the downloads *)
(* ===================================================================== *)

(** X25.  "Clear logs" empties the buffer, writes the empty buffer to
    storage and repaints an empty list, leaving the registry alone; a
    filter button changes what is painted and nothing else: the buffer, the
    registry and the storage stay as they are, also when painting fails. *)
Theorem console_toolbar (filter : string) (st : State) :
  consoleLogs (onConsoleClear st) = [] /\
  notesStore (onConsoleClear st) = notesStore st /\
  effects (onConsoleClear st) =
    effects st ++ [SetItem KEY_CONSOLE (JArray []); Render []] /\
  consoleFilter (onFilter filter st) = filter /\
  consoleLogs (onFilter filter st) = consoleLogs st /\
  notesStore (onFilter filter st) = notesStore st /\
  storeWrites (effects (onFilter filter st)) = storeWrites (effects st).
Proof.
  split; [apply onConsoleClear_logs|].
  split; [unfold onConsoleClear; rewrite uncaught_render_notes; reflexivity|].
  split.
  { unfold onConsoleClear. set (st1 := saveJSON _ _ _).
    assert (R : renderConsoleLogs st1 = Normal (emit (Render []) st1)).
    { unfold renderConsoleLogs. subst st1.
      cbn [consoleLogs saveJSON emit setLogs consoleFilter].
      destruct (String.eqb (consoleFilter st) EmptyString); reflexivity. }
    rewrite R. subst st1. cbn. rewrite <- app_assoc. reflexivity. }
  unfold onFilter.
  destruct (renderConsoleLogs_frame (setFilter filter st))
    as (s & [R | R] & Hc & Hn & _ & Hw); rewrite R; cbn [uncaught].
  - assert (F : consoleFilter s = filter).
    { destruct (renderConsoleLogs_effects (setFilter filter st)) as (p & [R' | [R' | R']]);
        rewrite R' in R; inversion R; reflexivity. }
    rewrite F, Hc, Hn, Hw. repeat split.
  - assert (F : consoleFilter s = filter).
    { destruct (renderConsoleLogs_effects (setFilter filter st)) as (p & [R' | [R' | R']]);
        rewrite R' in R; inversion R; reflexivity. }
    cbn. rewrite F, Hc, Hn, storeWrites_app, Hw. cbn. rewrite app_nil_r. repeat split.
Qed.

(** X26.  The three downloads only read: each adds one download to the
    effects and changes neither buffer, registry nor storage; and the
    notes-only and the logs-only download hand out exactly the [notes] and
    the [consoleLogs] of the full save. *)
Theorem downloads_only_read (now : Z) (iso : string) (st : State) :
  (forall st', st' = onDownloadAll now iso st \/ st' = onDownloadNotes now st \/
               st' = onDownloadConsole now st ->
     consoleLogs st' = consoleLogs st /\ notesStore st' = notesStore st /\
     storeWrites (effects st') = storeWrites (effects st) /\
     noteSaveTimer st' = noteSaveTimer st) /\
  (exists name data,
     effects (onDownloadNotes now st) = effects st ++ [Download name data] /\
     Get (fullSave iso st) "notes" = Some data) /\
  (exists name data,
     effects (onDownloadConsole now st) = effects st ++ [Download name data] /\
     Get (fullSave iso st) "consoleLogs" = Some data).
Proof.
  split; [|split].
  - intros st' [-> | [-> | ->]]; cbn; rewrite storeWrites_app; cbn;
      rewrite app_nil_r; auto.
  - eexists. eexists. split; [reflexivity|]. unfold fullSave. cbn [Get]. map_lookup.
    reflexivity.
  - eexists. eexists. split; [reflexivity|]. unfold fullSave. cbn [Get]. map_lookup.
    reflexivity.
Qed.

(** [downloads_only_read] on the notes-only download. *)
Lemma downloads_only_read_witness :
  let st := idleState [logEntry 1 (JStr "log") (JStr "a")] ∅ in
  consoleLogs (onDownloadNotes 5 st) = consoleLogs st /\
  storeWrites (effects (onDownloadNotes 5 st)) = [].
Proof.
  cbv zeta.
  destruct (proj1 (downloads_only_read 5 "2024-05-01T10:00:00.000Z"
                     (idleState [logEntry 1 (JStr "log") (JStr "a")] ∅))
              (onDownloadNotes 5 (idleState [logEntry 1 (JStr "log") (JStr "a")] ∅)))
    as (Hc & _ & Hw & _).
  - right. left. reflexivity.
  - split; [exact Hc | exact Hw].
Defined.
